(** * computeSales.py: total cost of a sales record against a price catalogue

    A shallow embedding of [compute_total_cost] and [main] of
    [computeSales.py], followed by the properties of the program.

    The two inputs are what [json.load] hands to the program: JSON values,
    with Python's arbitrary-precision [int] and binary64 [float].  The
    running total is a Python [float]; it is modelled with the IEEE 754
    specification of the Standard Library ([SpecFloat], precision 53,
    maximal exponent 1024), so that rounding is part of the model.  What
    else the program depends on, the texts that the console can encode
    and the memory for a repeated sequence, is a [Platform]; the
    properties hold on every platform. *)

From Stdlib Require Import ZArith List String Ascii Bool Lia Permutation.
From Stdlib Require Import Floats.SpecFloat DecimalString.
Import ListNotations.

#[local] Set Warnings "-register-all".
Local Open Scope string_scope.
Local Open Scope list_scope.
Local Open Scope Z_scope.

(** ** Python values, as produced by [json.load] *)

Definition float := spec_float.

(** An object keeps its members in the order of the document.  [json.load]
    turns them into a [dict], in which a repeated name keeps its last
    value. *)
Inductive value : Type :=
| JNull
| JBool (b : bool)
| JInt (z : Z)
| JFloat (f : float)
| JStr (s : string)
| JList (items : list value)
| JDict (members : list (string * value)).

(** The exceptions the program can meet.  [KeyError] carries the key. *)
Inductive exn : Type :=
| KeyError (key : value)
| TypeError
| AttributeError
| OverflowError
| MemoryError
| UnicodeEncodeError
| FileNotFoundError (msg : string)
| JSONDecodeError (msg : string)
| OtherError (name : string).

Inductive outcome (A : Type) : Type :=
| Return (a : A)
| Raise (e : exn).
Arguments Return {A} a.
Arguments Raise {A} e.

Definition obind {A B} (c : outcome A) (k : A -> outcome B) : outcome B :=
  match c with
  | Return a => k a
  | Raise e => Raise e
  end.

Declare Scope outcome_scope.
Delimit Scope outcome_scope with outcome.
Notation "x <- c ;; k" := (obind c (fun x => k))
  (at level 61, c at next level, right associativity) : outcome_scope.

(** ** binary64 arithmetic *)

Module F64.

Definition prec : Z := 53.
Definition emax : Z := 1024.

Definition zero : float := S754_zero false.
Definition add : float -> float -> float := SFadd prec emax.
Definition sub : float -> float -> float := SFsub prec emax.
Definition mul : float -> float -> float := SFmul prec emax.

(** The double nearest to an integer (ties to even); an infinity when the
    integer is beyond the range of binary64. *)
Definition of_Z (z : Z) : float := binary_normalize prec emax z 0 false.

(** The double nearest to [a / b], for two integers that are doubles
    themselves: [ratio 1 10] is the literal [0.1]. *)
Definition ratio (a b : Z) : float := SFdiv prec emax (of_Z a) (of_Z b).

End F64.

(** ** Numbers: [int], [float], and [bool] as the [int] it is *)

Inductive num : Type :=
| NInt (z : Z)
| NFloat (f : float).

Definition as_num (v : value) : option num :=
  match v with
  | JBool b => Some (NInt (if b then 1 else 0))
  | JInt z => Some (NInt z)
  | JFloat f => Some (NFloat f)
  | _ => None
  end.

(** Conversion of an [int] operand in mixed arithmetic: Python raises
    [OverflowError] ("int too large to convert to float") where the rounded
    value leaves the range. *)
Definition int_to_float (z : Z) : outcome float :=
  match F64.of_Z z with
  | S754_infinity _ => Raise OverflowError
  | f => Return f
  end.

Definition num_mul (a b : num) : outcome num :=
  match a, b with
  | NInt x, NInt y => Return (NInt (x * y))
  | NInt x, NFloat g => (f <- int_to_float x ;; Return (NFloat (F64.mul f g)))%outcome
  | NFloat f, NInt y => (g <- int_to_float y ;; Return (NFloat (F64.mul f g)))%outcome
  | NFloat f, NFloat g => Return (NFloat (F64.mul f g))
  end.

(** [total + n] for a [float] total. *)
Definition float_add_num (total : float) (n : num) : outcome float :=
  match n with
  | NInt z => (g <- int_to_float z ;; Return (F64.add total g))%outcome
  | NFloat g => Return (F64.add total g)
  end.

(** ** The platform *)

(** What comes of repeating a sequence that is not empty a positive number
    of times that fits an index. *)
Inductive repetition : Type :=
| Repeated
| TooLong
| NoMemory.

(** What the program depends on besides its inputs: the texts that
    [sys.stdout] can encode, and whether a sequence can be repeated
    ([OverflowError] for a string that would be too long, [MemoryError]
    where the memory does not suffice). *)
Class Platform : Type := {
  encodes : string -> bool;
  repeats : value -> Z -> repetition
}.

(** [sys.maxsize], the largest index, on a 64-bit build. *)
Definition index_max : Z := 2 ^ 63 - 1.

(** What can count the repetitions of a sequence: an [int]. *)
Definition as_index (v : value) : option Z :=
  match v with
  | JBool b => Some (if b then 1 else 0)
  | JInt z => Some z
  | _ => None
  end.

Definition is_sequence (v : value) : bool :=
  match v with
  | JStr _ | JList _ => true
  | _ => false
  end.

Definition empty_sequence (v : value) : bool :=
  match v with
  | JStr EmptyString | JList [] => true
  | _ => false
  end.

(** In [a * b], a [str] or a [list] with the [int] that repeats it. *)
Definition sequence_and_count (a b : value) : option (value * Z) :=
  if is_sequence a then option_map (pair a) (as_index b)
  else if is_sequence b then option_map (pair b) (as_index a)
  else None.

(** [total_cost += seq * n] always raises.  The count is first made an
    index: [OverflowError] when it does not fit.  Then the sequence is
    repeated, which may fail for its length or for memory; when it is
    built, it cannot be added to a [float]: [TypeError]. *)
Definition repeat_error {platform : Platform} (seq : value) (n : Z) : exn :=
  if (n <? - index_max - 1) || (index_max <? n) then OverflowError
  else if (n <=? 0) || empty_sequence seq then TypeError
  else
    match repeats seq n with
    | Repeated => TypeError
    | TooLong => OverflowError
    | NoMemory => MemoryError
    end.

(** The statement [total_cost += product_price * quantity].  With two
    numbers it is arithmetic.  A [str] or a [list] is repeated by an
    [int], see [repeat_error].  Nothing else can be multiplied ([None], a
    [dict], two sequences, a sequence and a [float]): [TypeError]. *)
Definition add_product {platform : Platform}
  (total_cost : float) (product_price quantity : value) : outcome float :=
  match as_num product_price, as_num quantity with
  | Some p, Some q => (n <- num_mul p q ;; float_add_num total_cost n)%outcome
  | _, _ =>
      Raise
        match sequence_and_count product_price quantity with
        | Some (seq, n) => repeat_error seq n
        | None => TypeError
        end
  end.

(** ** Keys of a [dict] *)

Definition hashable (v : value) : bool :=
  match v with
  | JList _ | JDict _ => false
  | _ => true
  end.

(** An [int] and a [float] are compared exactly. *)
Definition int_float_eqb (z : Z) (f : float) : bool :=
  match f with
  | S754_zero _ => z =? 0
  | S754_finite s m e =>
      let v := cond_Zopp s (Z.pos m) in
      if 0 <=? e then z =? v * 2 ^ e else z * 2 ^ (- e) =? v
  | _ => false
  end.

(** Two numbers name the same key when they are equal, whatever their
    types ([1], [1.0] and [True] are one key).  The decoder yields one
    [NaN] object, and a key is first compared by identity. *)
Definition num_eqb (a b : num) : bool :=
  match a, b with
  | NInt x, NInt y => x =? y
  | NInt x, NFloat g => int_float_eqb x g
  | NFloat f, NInt y => int_float_eqb y f
  | NFloat S754_nan, NFloat S754_nan => true
  | NFloat f, NFloat g => SFeqb f g
  end.

Definition key_eqb (a b : value) : bool :=
  match a, b with
  | JNull, JNull => true
  | JStr s, JStr t => String.eqb s t
  | _, _ =>
      match as_num a, as_num b with
      | Some x, Some y => num_eqb x y
      | _, _ => false
      end
  end.

(** A [dict] with arbitrary hashable keys: its items in insertion order,
    with pairwise different keys. *)
Definition pydict := list (value * value).

Fixpoint dict_find (d : pydict) (k : value) : option value :=
  match d with
  | [] => None
  | (k', v) :: rest => if key_eqb k' k then Some v else dict_find rest k
  end.

(** [d[k] = v] on a hashable key: an equal key keeps its place and takes the
    new value, a new key goes last. *)
Fixpoint dict_store (d : pydict) (k v : value) : pydict :=
  match d with
  | [] => [(k, v)]
  | (k', v') :: rest =>
      if key_eqb k' k then (k', v) :: rest else (k', v') :: dict_store rest k v
  end.

Definition dict_setitem (d : pydict) (k v : value) : outcome pydict :=
  if hashable k then Return (dict_store d k v) else Raise TypeError.

(** [k in d] *)
Definition dict_contains (d : pydict) (k : value) : outcome bool :=
  if hashable k then
    Return (match dict_find d k with Some _ => true | None => false end)
  else Raise TypeError.

(** [d[k]] *)
Definition dict_getitem (d : pydict) (k : value) : outcome value :=
  if hashable k then
    match dict_find d k with
    | Some v => Return v
    | None => Raise (KeyError k)
    end
  else Raise TypeError.

(** ** Records read from the files *)

(** The value of the last member named [k]. *)
Fixpoint member (ms : list (string * value)) (k : string) : option value :=
  match ms with
  | [] => None
  | (k', v) :: rest =>
      match member rest k with
      | Some v' => Some v'
      | None => if String.eqb k' k then Some v else None
      end
  end.

(** [item[k]] with a string [k]: only a [dict] can be indexed by a string. *)
Definition subscript (item : value) (k : string) : outcome value :=
  match item with
  | JDict ms =>
      match member ms k with
      | Some v => Return v
      | None => Raise (KeyError (JStr k))
      end
  | _ => Raise TypeError
  end.

(** [sale.get(k)]: only a [dict] has the method. *)
Definition get (sale : value) (k : string) : outcome value :=
  match sale with
  | JDict ms =>
      Return (match member ms k with Some v => v | None => JNull end)
  | _ => Raise AttributeError
  end.

Fixpoint names (ms : list (string * value)) (seen : list string) : list string :=
  match ms with
  | [] => []
  | (k, _) :: rest =>
      if existsb (String.eqb k) seen then names rest seen
      else k :: names rest (k :: seen)
  end.

(** What a [for] clause iterates over: the items of a list, the keys of a
    [dict], the characters of a [str]; nothing else is iterable. *)
Definition iterate (v : value) : outcome (list value) :=
  match v with
  | JList items => Return items
  | JDict ms => Return (map JStr (names ms []))
  | JStr s => Return (map (fun c => JStr (String c EmptyString)) (list_ascii_of_string s))
  | _ => Raise TypeError
  end.

(** ** The console *)

(** A printed line is kept as the pieces of its f-string: literal text,
    [{x}] and [{x:.2f}]. *)
Inductive piece : Type :=
| Text (s : string)
| Str (v : value)
| Fixed2 (f : float).

Definition line := list piece.

(** A computation that prints: it takes the lines printed so far and gives
    back its outcome with the lines printed by then.  What was printed
    before an exception stays printed. *)
Definition py (A : Type) : Type := list line -> outcome A * list line.

Definition ret {A} (a : A) : py A := fun out => (Return a, out).

Definition raise {A} (e : exn) : py A := fun out => (Raise e, out).

Definition bind {A B} (c : py A) (k : A -> py B) : py B :=
  fun out =>
    match c out with
    | (Return a, out') => k a out'
    | (Raise e, out') => (Raise e, out')
    end.

Definition lift {A} (c : outcome A) : py A := fun out => (c, out).

(** A formatted string can be encoded for the console unless the console
    has no encoding for it; literal text and the text of a number, of
    [None] and of a boolean are ASCII. *)
Definition encodable {platform : Platform} (p : piece) : bool :=
  match p with
  | Str (JStr s) => encodes s
  | _ => true
  end.

(** [print(line)]: the line is encoded as a whole and written;
    [UnicodeEncodeError] when a piece cannot be encoded, and nothing is
    written then. *)
Definition print {platform : Platform} (l : line) : py unit :=
  fun out =>
    if forallb encodable l then (Return tt, out ++ [l])
    else (Raise UnicodeEncodeError, out).

Declare Scope py_scope.
Delimit Scope py_scope with py.
Notation "x <- c ;; k" := (bind c (fun x => k))
  (at level 61, c at next level, right associativity) : py_scope.
Notation "c ;; k" := (bind c (fun _ => k))
  (at level 61, right associativity) : py_scope.

(** ** [compute_total_cost] *)

(** [f" Product {product_name} not found in the price catalogue."] *)
Definition warning (product_name : value) : line :=
  [Text " Product "; Str product_name; Text " not found in the price catalogue."].

(** [{item["title"]: item["price"] for item in price_catalogue}]: for each
    item the key is evaluated, then the value, then the pair is stored. *)
Fixpoint comprehension (items : list value) (d : pydict) : outcome pydict :=
  match items with
  | [] => Return d
  | item :: rest =>
      (k <- subscript item "title" ;;
       v <- subscript item "price" ;;
       d' <- dict_setitem d k v ;;
       comprehension rest d')%outcome
  end.

(** The body of the [for] loop, from the total so far to the next one. *)
Definition sale_step {platform : Platform}
  (product_prices : pydict) (total_cost : float) (sale : value) : py float :=
  (product_name <- lift (get sale "Product") ;;
   quantity <- lift (get sale "Quantity") ;;
   found <- lift (dict_contains product_prices product_name) ;;
   if (found : bool) then
     product_price <- lift (dict_getitem product_prices product_name) ;;
     lift (add_product total_cost product_price quantity)
   else
     print (warning product_name) ;;
     ret total_cost)%py.

Fixpoint for_sales {platform : Platform}
  (product_prices : pydict) (total_cost : float) (sales : list value)
  : py float :=
  match sales with
  | [] => ret total_cost
  | sale :: rest =>
      (total_cost' <- sale_step product_prices total_cost sale ;;
       for_sales product_prices total_cost' rest)%py
  end.

Definition compute_total_cost {platform : Platform}
  (price_catalogue sales_record : value) : py float :=
  let total_cost := F64.zero in
  (items <- lift (iterate price_catalogue) ;;
   product_prices <- lift (comprehension items []) ;;
   sales <- lift (iterate sales_record) ;;
   for_sales product_prices total_cost sales)%py.

(** ** [main] *)

(** What a run finds around it: what [open] followed by [json.load] gives
    for a path, the two readings of [time.time()], and whether
    [SalesResults.txt] can be opened for writing. *)
Record world : Type := {
  load : string -> outcome value;
  clock_start : float;
  clock_end : float;
  open_results : option exn
}.

Inductive exit : Type :=
| Finished
| SystemExit (code : Z)
| Uncaught (e : exn).

(** What a run leaves: the lines the program printed, the lines of
    [SalesResults.txt] when the run wrote it, and how the process ended
    (the traceback that the interpreter adds for an uncaught exception is
    in [status], not in [console]). *)
Record run : Type := {
  console : list line;
  results_file : option (list line);
  status : exit
}.

Definition usage : line :=
  [Text "Usage: python computeSales.py priceCatalogue.json sales.json"].

Definition total_line (total_cost : float) : line :=
  [Text "Total Cost: $"; Fixed2 total_cost].

Definition time_line (elapsed : float) : line :=
  [Text "Execution Time: "; Fixed2 elapsed; Text " seconds"].

(** The body of the [try] statement; it returns the lines written to
    [SalesResults.txt]. *)
Definition try_body {platform : Platform}
  (w : world) (price_catalogue_file sales_record_file : string)
  : py (list line) :=
  (price_catalogue <- lift (load w price_catalogue_file) ;;
   sales_record <- lift (load w sales_record_file) ;;
   let start_time := clock_start w in
   total_cost <- compute_total_cost price_catalogue sales_record ;;
   let end_time := clock_end w in
   print (total_line total_cost) ;;
   match open_results w with
   | Some e => raise e
   | None =>
       ret [total_line total_cost; time_line (F64.sub end_time start_time)]
   end)%py.

(** What an [except] clause leaves: its [print] may raise in turn, and
    that exception has no handler. *)
Definition handled {platform : Platform} (l : line) (out : list line) : run :=
  match print l out with
  | (Return _, out') =>
      {| console := out'; results_file := None; status := Finished |}
  | (Raise e, out') =>
      {| console := out'; results_file := None; status := Uncaught e |}
  end.

Definition main {platform : Platform} (argv : list string) (w : world) : run :=
  if negb (Nat.eqb (List.length argv) 3) then
    {| console := [usage]; results_file := None; status := SystemExit 1 |}
  else
    let price_catalogue_file := nth 1 argv "" in
    let sales_record_file := nth 2 argv "" in
    match try_body w price_catalogue_file sales_record_file [] with
    | (Return written, out) =>
        {| console := out; results_file := Some written; status := Finished |}
    | (Raise (FileNotFoundError msg), out) =>
        handled [Text "Error: "; Str (JStr msg)] out
    | (Raise (JSONDecodeError msg), out) =>
        handled [Text "Error: Invalid JSON format in one file "; Str (JStr msg)] out
    | (Raise e, out) =>
        {| console := out; results_file := None; status := Uncaught e |}
    end.

(** ** The text of a line *)

Definition decimal (z : Z) : string := NilZero.string_of_int (Z.to_int z).

(** [str(v)], for the values whose text is immediate.  The shortest
    round-trip digits of a [float] and the [repr] of the members of a
    container are left out. *)
Definition str (v : value) : option string :=
  match v with
  | JNull => Some "None"
  | JBool true => Some "True"
  | JBool false => Some "False"
  | JInt z => Some (decimal z)
  | JStr s => Some s
  | _ => None
  end.

(** [n / d] rounded to the nearest integer, ties to even ([0 <= n], [0 < d]). *)
Definition round_half_even (n d : Z) : Z :=
  let q := n / d in
  match 2 * (n mod d) ?= d with
  | Lt => q
  | Eq => if Z.even q then q else q + 1
  | Gt => q + 1
  end.

(** The number of hundredths nearest to [m * 2 ^ e]. *)
Definition hundredths (m : positive) (e : Z) : Z :=
  if 0 <=? e then Z.pos m * 2 ^ e * 100
  else round_half_even (Z.pos m * 100) (2 ^ (- e)).

Definition two_digits (n : Z) : string :=
  if n <? 10 then String.append "0" (decimal n) else decimal n.

(** [format(f, ".2f")]: the exact value of the double, correctly rounded to
    two decimals. *)
Definition fixed2 (f : float) : string :=
  match f with
  | S754_nan => "nan"
  | S754_infinity s => if s then "-inf" else "inf"
  | S754_zero s => if s then "-0.00" else "0.00"
  | S754_finite s m e =>
      let h := hundredths m e in
      String.append (if s then "-" else "")
        (String.append (decimal (h / 100))
           (String.append "." (two_digits (h mod 100))))
  end.

Fixpoint render (l : line) : option string :=
  match l with
  | [] => Some ""
  | p :: rest =>
      match render rest with
      | None => None
      | Some tail =>
          match p with
          | Text s => Some (String.append s tail)
          | Str v => option_map (fun s => String.append s tail) (str v)
          | Fixed2 f => Some (String.append (fixed2 f) tail)
          end
      end
  end.

(** ** The data model of the two files *)

(** A catalogue entry with title [t] and price [p]. *)
Definition entry (item : value) (t : string) (p : value) : Prop :=
  exists ms, item = JDict ms /\
             member ms "title" = Some (JStr t) /\ member ms "price" = Some p.

(** A JSON number. *)
Definition number (v : value) : option num :=
  match v with
  | JInt z => Some (NInt z)
  | JFloat f => Some (NFloat f)
  | _ => None
  end.

Definition priced_entry (item : value) : Prop :=
  exists t p, entry item t p /\ number p <> None.

(** The product and the quantity of a sale record. *)
Definition sale_fields (sale : value) : option (string * num) :=
  match sale with
  | JDict ms =>
      match member ms "Product", member ms "Quantity" with
      | Some (JStr name), Some q =>
          match number q with
          | Some n => Some (name, n)
          | None => None
          end
      | _, _ => None
      end
  | _ => None
  end.

Definition sale_record (sale : value) : Prop := sale_fields sale <> None.

Definition titled (name : string) (item : value) : bool :=
  match subscript item "title" with
  | Return (JStr t) => String.eqb t name
  | _ => false
  end.

(** The price of a product in the catalogue: that of the last entry with
    this title. *)
Fixpoint catalogue_price (catalogue : list value) (name : string) : option value :=
  match catalogue with
  | [] => None
  | item :: rest =>
      match catalogue_price rest name with
      | Some p => Some p
      | None =>
          if titled name item then
            match subscript item "price" with
            | Return p => Some p
            | Raise _ => None
            end
          else None
      end
  end.

(** The price and the quantity of a sale whose product is in the
    catalogue. *)
Definition resolved (catalogue : list value) (sale : value) : option (num * num) :=
  match sale_fields sale with
  | Some (name, q) =>
      match catalogue_price catalogue name with
      | Some pv =>
          match number pv with
          | Some p => Some (p, q)
          | None => None
          end
      | None => None
      end
  | None => None
  end.

Definition is_resolved (catalogue : list value) (sale : value) : bool :=
  match resolved catalogue sale with Some _ => true | None => false end.

(** Price times quantity, as the [float] that reaches the total. *)
Definition amount (pq : num * num) : float :=
  match pq with
  | (NInt x, NInt y) => F64.of_Z (x * y)
  | (NInt x, NFloat g) => F64.mul (F64.of_Z x) g
  | (NFloat f, NInt y) => F64.mul f (F64.of_Z y)
  | (NFloat f, NFloat g) => F64.mul f g
  end.

Definition cost (catalogue : list value) (sale : value) : float :=
  match resolved catalogue sale with
  | Some pq => amount pq
  | None => F64.zero
  end.

(** The sum of a list of floats, from [0.0], in the order of the list. *)
Definition float_sum (terms : list float) : float :=
  fold_left F64.add terms F64.zero.

(** The total of the specification: the sum of price times quantity over
    the sales whose product is in the catalogue. *)
Definition sum_of_sales (catalogue sales : list value) : float :=
  float_sum (map (cost catalogue) (filter (is_resolved catalogue) sales)).

(** The products of the other sales. *)
Definition product_name (sale : value) : value :=
  match get sale "Product" with
  | Return v => v
  | Raise _ => JNull
  end.

Definition unknown_products (catalogue sales : list value) : list value :=
  map product_name (filter (fun sale => negb (is_resolved catalogue sale)) sales).

(** An [int] that has a [float]: converting it does not overflow. *)
Definition has_float (z : Z) : bool :=
  match F64.of_Z z with
  | S754_infinity _ => false
  | _ => true
  end.

(** The integers of a product that Python converts to [float] have one. *)
Definition in_range (pq : num * num) : bool :=
  match pq with
  | (NInt x, NInt y) => has_float (x * y)
  | (NInt x, NFloat _) => has_float x
  | (NFloat _, NInt y) => has_float y
  | (NFloat _, NFloat _) => true
  end.

Definition sales_in_range (catalogue sales : list value) : Prop :=
  Forall (fun sale => match resolved catalogue sale with
                      | Some pq => in_range pq = true
                      | None => True
                      end) sales.

(** The exceptions that [main] does not handle. *)
Definition unhandled (e : exn) : Prop :=
  match e with
  | FileNotFoundError _ | JSONDecodeError _ => False
  | _ => True
  end.

(** The line that [main] prints for an exception it handles. *)
Definition error_line (e : exn) : line :=
  match e with
  | JSONDecodeError msg =>
      [Text "Error: Invalid JSON format in one file "; Str (JStr msg)]
  | FileNotFoundError msg => [Text "Error: "; Str (JStr msg)]
  | _ => []
  end.


(** ** Sample inputs *)

Module Sample.

Definition item (title : string) (price : value) : value :=
  JDict [("title", JStr title); ("price", price)].

Definition sale (product : string) (quantity : value) : value :=
  JDict [("Product", JStr product); ("Quantity", quantity)].

(** [[{"title": "A", "price": 10.0}, {"title": "B", "price": 2.5}]] *)
Definition catalogue : list value :=
  [item "A" (JFloat (F64.ratio 10 1)); item "B" (JFloat (F64.ratio 5 2))].

(** [[{"Product": "A", "Quantity": 3}, {"Product": "C", "Quantity": 1}]] *)
Definition sales : list value :=
  [sale "A" (JInt 3); sale "C" (JInt 1)].

Definition argv : list string :=
  ["computeSales.py"; "priceCatalogue.json"; "salesRecord.json"].

(** A directory that holds at most the two input files. *)
Definition disk (prices records : outcome value) (path : string) : outcome value :=
  if String.eqb path "priceCatalogue.json" then prices
  else if String.eqb path "salesRecord.json" then records
  else Raise (FileNotFoundError
                (String.append "[Errno 2] No such file or directory: " path)).

Definition world_of (prices records : outcome value) (t0 t1 : float) : world :=
  {| load := disk prices records;
     clock_start := t0; clock_end := t1; open_results := None |}.

Definition missing : outcome value :=
  Raise (FileNotFoundError
           "[Errno 2] No such file or directory: 'priceCatalogue.json'").

(** [[{"Product": "A"}]] *)
Definition sales_without_quantity : list value :=
  [JDict [("Product", JStr "A")]].

(** [[{"product": "A", "Quantity": 3}]] *)
Definition sales_lower_case : list value :=
  [JDict [("product", JStr "A"); ("Quantity", JInt 3)]].

(** [[{"title": "A", "price": 10.0}, {"title": "B"}]] *)
Definition catalogue_without_price : list value :=
  [item "A" (JFloat (F64.ratio 10 1)); JDict [("title", JStr "B")]].

(** [[{"title": "A", "price": 10.0}, {"title": "A", "price": 2.5}]] *)
Definition catalogue_twice : list value :=
  [item "A" (JFloat (F64.ratio 10 1)); item "A" (JFloat (F64.ratio 5 2))].

(** [[{"title": "A", "price": 10000000000000000}, {"title": "B", "price": 1}]] *)
Definition catalogue_int : list value :=
  [item "A" (JInt 10000000000000000); item "B" (JInt 1)].

Definition sales_ABB : list value :=
  [sale "A" (JInt 1); sale "B" (JInt 1); sale "B" (JInt 1)].

Definition sales_BBA : list value :=
  [sale "B" (JInt 1); sale "B" (JInt 1); sale "A" (JInt 1)].

(** A text, held as generalised UTF-8, has a surrogate where the byte 237
    is followed by a byte from 160 to 191. *)
Fixpoint has_surrogate (s : string) : bool :=
  match s with
  | String a ((String b _) as tail) =>
      (Nat.eqb (nat_of_ascii a) 237
       && Nat.leb 160 (nat_of_ascii b) && Nat.leb (nat_of_ascii b) 191)
      || has_surrogate tail
  | _ => false
  end.

(** A console that encodes UTF-8, which has every text but those with a
    surrogate, and memory for about four thousand million repetitions. *)
Definition platform : Platform :=
  {| encodes := fun s => negb (has_surrogate s);
     repeats := fun _ n => if n <=? 2 ^ 32 then Repeated else NoMemory |}.

(** The string of the JSON text ["\ud800"], a lone surrogate. *)
Definition lone_surrogate : string :=
  String (ascii_of_nat 237)
    (String (ascii_of_nat 160) (String (ascii_of_nat 128) EmptyString)).

(** A file that exists and cannot be read. *)
Definition unreadable : outcome value := Raise (OtherError "PermissionError").

(** [[{"title": null, "price": 2.0}]] *)
Definition catalogue_null_title : list value :=
  [JDict [("title", JNull); ("price", JFloat (F64.ratio 2 1))]].

(** [[{"Quantity": 3}]] *)
Definition sales_without_product : list value :=
  [JDict [("Quantity", JInt 3)]].

(** [[{"title": "A", "price": 10}, {"title": "B", "price": 3}]] *)
Definition catalogue_small : list value :=
  [item "A" (JInt 10); item "B" (JInt 3)].

Definition sales_AB : list value := [sale "A" (JInt 2); sale "B" (JInt 1)].

Definition sales_BA : list value := [sale "B" (JInt 1); sale "A" (JInt 2)].

End Sample.

(** A mapping whose keys are all strings. *)
Definition string_keyed (d : pydict) : Prop :=
  Forall (fun kv => exists s, fst kv = JStr s) d.

Definition titled_entry (item : value) : Prop := exists t p, entry item t p.

(** ** Integer amounts *)

(** [p * 2 ^ n] *)
Definition shift (p : positive) (n : nat) : positive := Nat.iter n xO p.

(** The double of a positive integer of at most 53 bits: the integer with
    its leading bit moved to the top of the mantissa. *)
Definition float_of_pos (p : positive) : float :=
  let d := Z.pos (digits2_pos p) in
  S754_finite false (shift p (Z.to_nat (F64.prec - d))) (d - F64.prec).

(** Price times quantity as an integer, for a sale whose product is in the
    catalogue with a non-negative integer price and whose quantity is a
    non-negative integer. *)
Definition int_amount (catalogue : list value) (sale : value) : option Z :=
  match resolved catalogue sale with
  | Some (NInt p, NInt q) =>
      if (0 <=? p) && (0 <=? q) then Some (p * q) else None
  | _ => None
  end.

(** The exact sum of these amounts. *)
Fixpoint exact_total (catalogue sales : list value) : Z :=
  match sales with
  | [] => 0
  | sale :: rest =>
      match int_amount catalogue sale with
      | Some z => z + exact_total catalogue rest
      | None => exact_total catalogue rest
      end
  end.

Definition int_sale (catalogue : list value) (sale : value) : Prop :=
  int_amount catalogue sale <> None.

(** ** Notions for the further properties *)

(** The title of a catalogue entry, when it has one that is a string. *)
Definition title (item : value) : option string :=
  match subscript item "title" with
  | Return (JStr t) => Some t
  | _ => None
  end.

(** The exceptions that arise inside [compute_total_cost]. *)
Definition computation_error (e : exn) : Prop :=
  match e with
  | KeyError _ | TypeError | AttributeError | OverflowError | MemoryError
  | UnicodeEncodeError => True
  | _ => False
  end.

(** A product name whose warning the console can encode. *)
Definition printable {platform : Platform} (name : value) : bool :=
  encodable (Str name).

(** A sale that is an object whose product name can be looked up. *)
Definition object_sale (sale : value) : Prop :=
  exists name, get sale "Product" = Return name /\ hashable name = true.

(** What a computation prints is appended to the console it is given, and
    neither its outcome nor what it prints depends on that console. *)
Definition appends {A} (c : py A) : Prop :=
  forall out, c out = (fst (c []), out ++ snd (c [])).

(** * Properties *)

(** The entries of a literal catalogue have a title and a numeric price. *)
Ltac priced_entries :=
  repeat constructor;
  (eexists _, _; split; [eexists; repeat split; reflexivity | discriminate]).

Section Properties.

Context {platform : Platform}.

(** ** Printing *)

Lemma print_encodable l out :
  forallb encodable l = true -> print l out = (Return tt, out ++ [l]).
Proof. intros H. unfold print. now rewrite H. Qed.

Lemma print_warning name out :
  print (warning name) out
  = if printable name then (Return tt, out ++ [warning name])
    else (Raise UnicodeEncodeError, out).
Proof.
  unfold print, printable, warning. cbn [forallb]. unfold encodable.
  cbn [andb]. now rewrite andb_true_r.
Qed.

Lemma handled_encodable msg text out :
  encodes msg = true ->
  handled [Text text; Str (JStr msg)] out
  = {| console := out ++ [[Text text; Str (JStr msg)]];
       results_file := None; status := Finished |}.
Proof.
  intros H. unfold handled. rewrite print_encodable; [reflexivity |].
  cbn. now rewrite H.
Qed.

Lemma handled_unencodable msg text out :
  encodes msg = false ->
  handled [Text text; Str (JStr msg)] out
  = {| console := out; results_file := None;
       status := Uncaught UnicodeEncodeError |}.
Proof. intros H. unfold handled, print. cbn. now rewrite H. Qed.

Lemma handled_no_file l out : results_file (handled l out) = None.
Proof. unfold handled. now destruct (print l out) as [[u | e] out']. Qed.

(** A run that wrote no results file. *)
Ltac no_file :=
  try discriminate;
  rewrite handled_no_file; discriminate.

(** ** The console is only appended to *)

Lemma appends_ret {A} (a : A) : appends (ret a).
Proof. intros out. cbn. now rewrite app_nil_r. Qed.

Lemma appends_lift {A} (c : outcome A) : appends (lift c).
Proof. intros out. cbn. now rewrite app_nil_r. Qed.

Lemma appends_print l : appends (print l).
Proof.
  intros out. unfold print. destruct (forallb encodable l); cbn;
    [reflexivity | now rewrite app_nil_r].
Qed.

Lemma appends_bind {A B} (c : py A) (k : A -> py B) :
  appends c -> (forall a, appends (k a)) -> appends (bind c k).
Proof.
  intros Hc Hk out. unfold bind. rewrite (Hc out).
  destruct (c []) as [[a | e] printed]; cbn [fst snd].
  - rewrite (Hk a (out ++ printed)), (Hk a printed). cbn [fst snd].
    now rewrite app_assoc.
  - reflexivity.
Qed.

Lemma appends_sale_step d total sale : appends (sale_step d total sale).
Proof.
  unfold sale_step.
  apply appends_bind; [apply appends_lift | intros name].
  apply appends_bind; [apply appends_lift | intros quantity].
  apply appends_bind; [apply appends_lift | intros [|]].
  - apply appends_bind; [apply appends_lift | intros price]. apply appends_lift.
  - apply appends_bind; [apply appends_print | intros _]. apply appends_ret.
Qed.

Lemma appends_for_sales d sales : forall total, appends (for_sales d total sales).
Proof.
  induction sales as [| sale rest IH]; intros total; cbn [for_sales].
  - apply appends_ret.
  - apply appends_bind; [apply appends_sale_step | exact IH].
Qed.

(** ** The command line *)

(** C7: with any number of positional arguments other than two, [main]
    prints the usage message, exits with status 1, which is not zero, and
    writes no results file. *)
Theorem main_usage (prog : string) (args : list string) (w : world) :
  List.length args <> 2%nat ->
  main (prog :: args) w =
    {| console := [usage]; results_file := None; status := SystemExit 1 |}
  /\ render usage = Some "Usage: python computeSales.py priceCatalogue.json sales.json"
  /\ 1 <> 0.
Proof.
  intros Hlen. split; [| split; [reflexivity | lia]].
  unfold main. cbn [List.length].
  destruct (Nat.eqb (S (List.length args)) 3) eqn:E; [| reflexivity].
  apply Nat.eqb_eq in E. exfalso. apply Hlen. lia.
Qed.

(** ** Loading the two files *)

Lemma try_body_catalogue_fails w cf sf e out :
  load w cf = Raise e -> try_body w cf sf out = (Raise e, out).
Proof. intros H. unfold try_body, bind, lift. rewrite H. reflexivity. Qed.

Lemma try_body_sales_fails w cf sf v e out :
  load w cf = Return v -> load w sf = Raise e ->
  try_body w cf sf out = (Raise e, out).
Proof. intros H1 H2. unfold try_body, bind, lift. rewrite H1, H2. reflexivity. Qed.

Lemma try_body_load_fails w cf sf e :
  load w cf = Raise e \/ (exists v, load w cf = Return v /\ load w sf = Raise e) ->
  try_body w cf sf [] = (Raise e, []).
Proof.
  intros [H | [v [H1 H2]]].
  - now apply try_body_catalogue_fails.
  - now apply try_body_sales_fails with v.
Qed.

(** C6, as the code has it: when loading the catalogue file, or else the
    sales file, raises, nothing is computed and no results file is
    written.  For a [FileNotFoundError] or a [JSONDecodeError] whose
    message the console can encode, [main] prints the one error line and
    returns; when the console cannot encode the message, the [print] of
    the handler raises [UnicodeEncodeError], which is left uncaught.  Any
    other exception has no handler: the program prints nothing and the
    run ends with the exception uncaught. *)
Theorem main_load_failure (prog cf sf : string) (w : world) (e : exn) :
  load w cf = Raise e \/ (exists v, load w cf = Return v /\ load w sf = Raise e) ->
  results_file (main [prog; cf; sf] w) = None
  /\ (forall msg,
        e = FileNotFoundError msg \/ e = JSONDecodeError msg ->
        (encodes msg = true ->
         main [prog; cf; sf] w =
           {| console := [error_line e]; results_file := None;
              status := Finished |})
        /\ (encodes msg = false ->
            main [prog; cf; sf] w =
              {| console := []; results_file := None;
                 status := Uncaught UnicodeEncodeError |}))
  /\ (unhandled e ->
      main [prog; cf; sf] w =
        {| console := []; results_file := None; status := Uncaught e |}).
Proof.
  intros Hload. pose proof (try_body_load_fails w cf sf e Hload) as Hbody.
  unfold main. cbn [List.length Nat.eqb negb nth]. rewrite Hbody.
  split; [| split].
  - destruct e; try reflexivity; apply handled_no_file.
  - intros msg [-> | ->]; cbn [error_line]; split; intros Hmsg.
    + now rewrite handled_encodable.
    + now rewrite handled_unencodable.
    + now rewrite handled_encodable.
    + now rewrite handled_unencodable.
  - intros He. destruct e; try reflexivity; destruct He.
Qed.

(** Any other exception of a load leaves [main]: the run ends there, with
    nothing printed by the program and no results file. *)
Lemma main_load_uncaught prog cf sf w e :
  load w cf = Raise e \/ (exists v, load w cf = Return v /\ load w sf = Raise e) ->
  unhandled e ->
  main [prog; cf; sf] w =
    {| console := []; results_file := None; status := Uncaught e |}.
Proof.
  intros Hload He. pose proof (try_body_load_fails w cf sf e Hload) as Hbody.
  unfold main. cbn [List.length Nat.eqb negb nth]. rewrite Hbody.
  destruct e; try reflexivity; destruct He.
Qed.

(** ** Two runs on the same inputs *)

(** C8: two runs that load the same values from the same paths differ at
    most in the readings of the clock; they print the same console lines,
    end the same way, and when they write the results file its first
    line, the total-cost line, is the same. *)
Theorem main_total_deterministic (argv : list string) (w1 w2 : world) :
  (forall path, load w1 path = load w2 path) ->
  open_results w1 = open_results w2 ->
  console (main argv w1) = console (main argv w2)
  /\ status (main argv w1) = status (main argv w2)
  /\ option_map (hd []) (results_file (main argv w1))
     = option_map (hd []) (results_file (main argv w2)).
Proof.
  intros Hload Hopen. unfold main.
  destruct (negb (Nat.eqb (List.length argv) 3)); [repeat split |].
  unfold try_body, bind, lift.
  rewrite (Hload (nth 1 argv "")), (Hload (nth 2 argv "")), Hopen.
  destruct (load w2 (nth 1 argv "")) as [pc | e1].
  - destruct (load w2 (nth 2 argv "")) as [sr | e2].
    + destruct (compute_total_cost pc sr []) as [[total | e3] out].
      * rewrite print_encodable by reflexivity. unfold raise, ret.
        destruct (open_results w2) as [e4 |]; [destruct e4 |]; repeat split.
      * destruct e3; repeat split.
    + destruct e2; repeat split.
  - destruct e1; repeat split.
Qed.

(** When a run writes the results file, both inputs were loaded,
    [compute_total_cost] returned, and the first line of the file is the
    total it returned, as printed on the console. *)
Lemma main_results_file argv w written :
  results_file (main argv w) = Some written ->
  exists price_catalogue sales_record total out,
    load w (nth 1 argv "") = Return price_catalogue
    /\ load w (nth 2 argv "") = Return sales_record
    /\ compute_total_cost price_catalogue sales_record [] = (Return total, out)
    /\ console (main argv w) = out ++ [total_line total]
    /\ written = [total_line total;
                  time_line (F64.sub (clock_end w) (clock_start w))].
Proof.
  unfold main.
  destruct (negb (Nat.eqb (List.length argv) 3)); [discriminate |].
  unfold try_body, bind, lift.
  destruct (load w (nth 1 argv "")) as [pc | e1]; [| destruct e1; no_file].
  destruct (load w (nth 2 argv "")) as [sr | e2]; [| destruct e2; no_file].
  destruct (compute_total_cost pc sr []) as [[total | e3] out] eqn:Hc;
    [| destruct e3; no_file].
  rewrite print_encodable by reflexivity. unfold raise, ret.
  destruct (open_results w) as [e4 |]; [destruct e4; no_file |].
  cbn. intros [= <-]. exists pc, sr, total, out. repeat split; trivial.
Qed.

(** ** One turn of the loop *)

Lemma for_sales_cons d total sale rest out :
  for_sales d total (sale :: rest) out =
    match sale_step d total sale out with
    | (Return total', out') => for_sales d total' rest out'
    | (Raise e, out') => (Raise e, out')
    end.
Proof. reflexivity. Qed.

Lemma sale_step_absent d total sale name out :
  get sale "Product" = Return name ->
  dict_contains d name = Return false ->
  sale_step d total sale out
  = if printable name then (Return total, out ++ [warning name])
    else (Raise UnicodeEncodeError, out).
Proof.
  intros Hget Hin. unfold sale_step, bind, lift. rewrite Hget.
  assert (Hq : exists q, get sale "Quantity" = Return q).
  { destruct sale; try discriminate. cbn. eauto. }
  destruct Hq as [q ->]. rewrite Hin, print_warning.
  now destruct (printable name).
Qed.

Lemma sale_step_unknown d total sale name out :
  get sale "Product" = Return name ->
  dict_contains d name = Return false ->
  printable name = true ->
  sale_step d total sale out = (Return total, out ++ [warning name]).
Proof.
  intros Hget Hin Hp. now rewrite (sale_step_absent _ _ _ name), Hp.
Qed.

Lemma sale_step_known d total sale name quantity price out :
  get sale "Product" = Return name ->
  get sale "Quantity" = Return quantity ->
  hashable name = true ->
  dict_find d name = Some price ->
  sale_step d total sale out = (add_product total price quantity, out).
Proof.
  intros Hp Hq Hh Hf. unfold sale_step, bind, lift, dict_contains, dict_getitem.
  rewrite Hp, Hq, Hh, Hf. reflexivity.
Qed.

(** The loop over a list of sales followed by another is the loop over
    the first, then the loop over the second from the total and the
    console the first one left; when a record of the first raises, no
    record after it is looked at and nothing more is printed. *)
Lemma for_sales_app
  (product_prices : pydict) (total : float) (first second : list value)
  (out : list line) :
  for_sales product_prices total (first ++ second) out
  = match for_sales product_prices total first out with
    | (Return total', out') => for_sales product_prices total' second out'
    | (Raise e, out') => (Raise e, out')
    end.
Proof.
  revert total out. induction first as [| sale rest IH]; intros total out.
  - reflexivity.
  - cbn [app]. rewrite !for_sales_cons.
    destruct (sale_step product_prices total sale out) as [[total' | e] out'].
    + apply IH.
    + reflexivity.
Qed.

(** [compute_total_cost] on a list of sales, by the mapping of the
    catalogue. *)
Lemma compute_total_cost_loop catalogue d sales out :
  comprehension catalogue [] = Return d ->
  compute_total_cost (JList catalogue) (JList sales) out
  = for_sales d F64.zero sales out.
Proof.
  intros Hd. unfold compute_total_cost, bind, lift. cbn [iterate].
  now rewrite Hd.
Qed.

Lemma compute_total_cost_mapping catalogue sales out total out' :
  compute_total_cost (JList catalogue) (JList sales) out = (Return total, out') ->
  exists d, comprehension catalogue [] = Return d.
Proof.
  unfold compute_total_cost, bind, lift. cbn [iterate].
  destruct (comprehension catalogue []) as [d | e]; [eauto | discriminate].
Qed.

(** A record that leaves the total as it is and prints one line changes
    the run by that line alone, at the place of the record. *)
Lemma compute_total_cost_skip
  catalogue d before after sale total r out out1 printed l :
  comprehension catalogue [] = Return d ->
  (forall o, sale_step d total sale o = (Return total, o ++ [l])) ->
  compute_total_cost (JList catalogue) (JList before) out = (Return total, out1) ->
  compute_total_cost (JList catalogue) (JList (before ++ after)) out
  = (r, out1 ++ printed) ->
  compute_total_cost (JList catalogue) (JList (before ++ sale :: after)) out
  = (r, out1 ++ l :: printed).
Proof.
  intros Hd Hstep Hbefore Hwithout.
  rewrite (compute_total_cost_loop catalogue d) in * by assumption.
  rewrite for_sales_app, Hbefore in Hwithout.
  rewrite for_sales_app, Hbefore, for_sales_cons, Hstep.
  rewrite (appends_for_sales d after total out1) in Hwithout.
  rewrite (appends_for_sales d after total (out1 ++ [l])).
  injection Hwithout as Hr Hprinted. apply app_inv_head in Hprinted.
  rewrite Hr, Hprinted, <- app_assoc. reflexivity.
Qed.

(** C3, as the code has it: a sale whose product is not a key of the price
    mapping, and whose name the console can encode, leaves the total as
    it is and prints one warning that names the product.  In the run of
    [compute_total_cost] the record adds that one line at its place and
    nothing else: the records after it are processed as they are without
    it, and the outcome is the same. *)
Theorem unknown_product_is_skipped
  (catalogue : list value) (product_prices : pydict)
  (before after : list value) (sale name : value) (total : float)
  (r : outcome float) (out out1 printed : list line) :
  comprehension catalogue [] = Return product_prices ->
  get sale "Product" = Return name ->
  dict_contains product_prices name = Return false ->
  printable name = true ->
  compute_total_cost (JList catalogue) (JList before) out = (Return total, out1) ->
  compute_total_cost (JList catalogue) (JList (before ++ after)) out
  = (r, out1 ++ printed) ->
  sale_step product_prices total sale out1 = (Return total, out1 ++ [warning name])
  /\ compute_total_cost (JList catalogue) (JList (before ++ sale :: after)) out
     = (r, out1 ++ warning name :: printed)
  /\ forall s, name = JStr s ->
       render (warning name)
       = Some (String.append " Product "
                 (String.append s " not found in the price catalogue.")).
Proof.
  intros Hd Hget Hin Hp Hbefore Hwithout. split; [| split].
  - now apply sale_step_unknown.
  - apply (compute_total_cost_skip catalogue product_prices) with total; trivial.
    intros o. now apply sale_step_unknown.
  - intros s ->. reflexivity.
Qed.

(** A sale without a quantity whose product is in the mapping: the
    multiplication by [None] raises, and the loop is left. *)
Lemma missing_quantity_raises d total ms name rest out :
  member ms "Product" = Some name ->
  member ms "Quantity" = None ->
  dict_contains d name = Return true ->
  for_sales d total (JDict ms :: rest) out = (Raise TypeError, out).
Proof.
  intros Hp Hq Hin. unfold dict_contains in Hin.
  destruct (hashable name) eqn:Hh; [| discriminate].
  destruct (dict_find d name) as [price |] eqn:Hf; [| discriminate].
  rewrite for_sales_cons.
  rewrite (sale_step_known d total (JDict ms) name JNull price); trivial.
  - unfold add_product, sequence_and_count. cbn [as_num as_index is_sequence].
    destruct (as_num price); destruct (is_sequence price); reflexivity.
  - cbn. now rewrite Hp.
  - cbn. now rewrite Hq.
Qed.

(** C5 (the code departs from it): on the catalogue
    [[{"title": "A", "price": 10.0}]] and the sales
    [[{"Product": "A"}]], the record without a quantity is not reported and
    skipped: [TypeError] leaves [compute_total_cost] and [main], nothing is
    printed and no results file is written. *)
Theorem missing_quantity_aborts_run :
  compute_total_cost (JList [Sample.item "A" (JFloat (F64.ratio 10 1))])
    (JList Sample.sales_without_quantity) []
  = (Raise TypeError, [])
  /\ main Sample.argv
       (Sample.world_of
          (Return (JList [Sample.item "A" (JFloat (F64.ratio 10 1))]))
          (Return (JList Sample.sales_without_quantity))
          F64.zero F64.zero)
     = {| console := []; results_file := None; status := Uncaught TypeError |}.
Proof. split; reflexivity. Qed.

(** ** Sales without a product *)

Lemma key_eqb_null k : key_eqb k JNull = true -> k = JNull.
Proof. destruct k; cbn; intros H; try discriminate; reflexivity. Qed.

Lemma dict_store_null d k v :
  k <> JNull -> dict_find d JNull = None ->
  dict_find (dict_store d k v) JNull = None.
Proof.
  intros Hk. induction d as [| [k' v'] d IH]; cbn.
  - intros _. destruct (key_eqb k JNull) eqn:E; [| reflexivity].
    now apply key_eqb_null in E.
  - destruct (key_eqb k' JNull) eqn:E; [discriminate |]. intros Hd.
    destruct (key_eqb k' k); cbn; rewrite E; auto.
Qed.

Lemma comprehension_null items : forall d0 d,
  Forall (fun item => subscript item "title" <> Return JNull) items ->
  comprehension items d0 = Return d ->
  dict_find d0 JNull = None -> dict_find d JNull = None.
Proof.
  induction items as [| item items IH]; intros d0 d Hall; cbn.
  - now intros [= <-].
  - inversion Hall as [| ? ? Hitem Hrest]; subst.
    destruct (subscript item "title") as [k | e]; [| discriminate].
    destruct (subscript item "price") as [v | e]; [| discriminate]. cbn.
    unfold dict_setitem. destruct (hashable k); [| discriminate]. cbn.
    intros Hc Hd. apply (IH _ _ Hrest Hc). apply dict_store_null; [| exact Hd].
    intros ->. now apply Hitem.
Qed.

(** C10, as the code has it: when no entry of the catalogue has a [null]
    title, a sale without the key ['Product'] raises nothing: its product
    name is [None], which is not a key of the mapping, so in the run of
    [compute_total_cost] the record adds one line at its place, the
    warning that names the product [None], and nothing else: the outcome
    and the lines of the other records are what they are without it. *)
Theorem missing_product_is_skipped
  (catalogue : list value) (before after : list value)
  (ms : list (string * value)) (total : float) (r : outcome float)
  (out out1 printed : list line) :
  Forall (fun item => subscript item "title" <> Return JNull) catalogue ->
  member ms "Product" = None ->
  compute_total_cost (JList catalogue) (JList before) out = (Return total, out1) ->
  compute_total_cost (JList catalogue) (JList (before ++ after)) out
  = (r, out1 ++ printed) ->
  compute_total_cost (JList catalogue) (JList (before ++ JDict ms :: after)) out
  = (r, out1 ++ warning JNull :: printed)
  /\ render (warning JNull)
     = Some " Product None not found in the price catalogue.".
Proof.
  intros Hall Hm Hbefore Hwithout. split; [| reflexivity].
  destruct (compute_total_cost_mapping _ _ _ _ _ Hbefore) as [d Hd].
  apply (compute_total_cost_skip catalogue d) with total; trivial.
  intros o. apply sale_step_unknown; [| | reflexivity].
  - cbn. now rewrite Hm.
  - unfold dict_contains. cbn.
    now rewrite (comprehension_null _ _ _ Hall Hd).
Qed.

(** ** Catalogue entries without a key *)

Lemma comprehension_lacking items : forall d item ms,
  In item items -> item = JDict ms ->
  member ms "title" = None \/ member ms "price" = None ->
  exists e, comprehension items d = Raise e /\ unhandled e.
Proof.
  induction items as [| i items IH]; intros d item ms Hin Hi Hm;
    [destruct Hin |].
  cbn [comprehension].
  destruct Hin as [-> | Hin].
  - subst item. cbn.
    destruct Hm as [-> | Hp].
    + eexists. split; [reflexivity | exact I].
    + rewrite Hp. destruct (member ms "title"); cbn; eexists;
        (split; [reflexivity | exact I]).
  - destruct (subscript i "title") as [k | e] eqn:Et.
    + destruct (subscript i "price") as [v | e] eqn:Ep.
      * cbn. unfold dict_setitem. destruct (hashable k); cbn.
        -- eapply IH; eauto.
        -- eexists. split; [reflexivity | exact I].
      * cbn. exists e. split; [reflexivity |].
        destruct i; try discriminate; try (injection Ep as <-; exact I).
        cbn in Ep. destruct (member members "price"); [discriminate |].
        injection Ep as <-. exact I.
    + cbn. exists e. split; [reflexivity |].
      destruct i; try discriminate; try (injection Et as <-; exact I).
      cbn in Et. destruct (member members "title"); [discriminate |].
      injection Et as <-. exact I.
Qed.

(** C9: when an entry of the catalogue has no ['title'] or no ['price'],
    building the price mapping raises; [compute_total_cost] raises with
    it before any sale is looked at, [main] has no handler for the
    exception, and the run ends there without a results file. *)
Theorem catalogue_entry_without_key_aborts
  (catalogue : list value) (item : value) (ms : list (string * value))
  (sales_record : value) (out : list line) :
  In item catalogue -> item = JDict ms ->
  member ms "title" = None \/ member ms "price" = None ->
  exists e,
    compute_total_cost (JList catalogue) sales_record out = (Raise e, out)
    /\ unhandled e
    /\ forall prog cf sf w,
         load w cf = Return (JList catalogue) ->
         load w sf = Return sales_record ->
         main [prog; cf; sf] w
         = {| console := []; results_file := None; status := Uncaught e |}.
Proof.
  intros Hin Hi Hm.
  destruct (comprehension_lacking catalogue [] item ms Hin Hi Hm) as [e [Hc He]].
  assert (Hcompute : forall o,
             compute_total_cost (JList catalogue) sales_record o = (Raise e, o)).
  { intros o. unfold compute_total_cost, bind, lift. cbn. now rewrite Hc. }
  exists e. split; [apply Hcompute | split; [exact He |]].
  intros prog cf sf w Hcf Hsf. unfold main. cbn [List.length Nat.eqb negb nth].
  unfold try_body, bind, lift. rewrite Hcf, Hsf, Hcompute.
  destruct e; try reflexivity; destruct He.
Qed.

(** ** The price mapping of a catalogue with string titles *)

Lemma entry_subscript item t p :
  entry item t p ->
  subscript item "title" = Return (JStr t) /\ subscript item "price" = Return p.
Proof. intros [ms [-> [Ht Hp]]]. cbn. now rewrite Ht, Hp. Qed.

Lemma entry_titled item t p name :
  entry item t p -> titled name item = String.eqb t name.
Proof.
  intros H. unfold titled. now rewrite (proj1 (entry_subscript _ _ _ H)).
Qed.

Lemma dict_store_string d t v :
  string_keyed d ->
  string_keyed (dict_store d (JStr t) v)
  /\ forall name,
       dict_find (dict_store d (JStr t) v) (JStr name)
       = if String.eqb t name then Some v else dict_find d (JStr name).
Proof.
  induction d as [| [k' v'] d IH]; intros Hd.
  - split; [repeat constructor; cbn; eauto | reflexivity].
  - inversion Hd as [| ? ? [s Hs] Hrest]; subst. cbn in Hs. subst k'.
    destruct (IH Hrest) as [IHk IHf]. cbn.
    destruct (String.eqb s t) eqn:Est.
    + apply String.eqb_eq in Est. subst s. split.
      * constructor; [cbn; eauto | exact Hrest].
      * intros name. cbn. destruct (String.eqb t name); reflexivity.
    + split.
      * constructor; [cbn; eauto | exact IHk].
      * intros name. cbn. rewrite IHf.
        destruct (String.eqb s name) eqn:Esn; [| reflexivity].
        apply String.eqb_eq in Esn. subst s.
        now rewrite String.eqb_sym, Est.
Qed.

(** The comprehension succeeds on entries with a string title and a
    price, and the mapping it builds gives every title the price of
    its last entry. *)
Lemma comprehension_string catalogue : forall d0,
  Forall titled_entry catalogue -> string_keyed d0 ->
  exists d,
    comprehension catalogue d0 = Return d
    /\ string_keyed d
    /\ forall name,
         dict_find d (JStr name)
         = match catalogue_price catalogue name with
           | Some p => Some p
           | None => dict_find d0 (JStr name)
           end.
Proof.
  induction catalogue as [| item rest IH]; intros d0 Hall Hd0.
  - exists d0. repeat split; trivial.
  - inversion Hall as [| ? ? [t [p He]] Hrest]; subst.
    destruct (entry_subscript _ _ _ He) as [Ht Hp].
    destruct (dict_store_string d0 t p Hd0) as [Hk1 Hf1].
    destruct (IH (dict_store d0 (JStr t) p) Hrest Hk1) as [d [Hd [Hk Hf]]].
    exists d. cbn [comprehension]. rewrite Ht, Hp. cbn.
    split; [exact Hd | split; [exact Hk |]].
    intros name. rewrite Hf, Hf1. cbn [catalogue_price].
    destruct (catalogue_price rest name); [reflexivity |].
    rewrite (entry_titled _ _ _ name He), Hp.
    destruct (String.eqb t name); reflexivity.
Qed.



(** ** The total *)

Lemma priced_titled catalogue :
  Forall priced_entry catalogue -> Forall titled_entry catalogue.
Proof.
  apply Forall_impl. intros item [t [p [He _]]]. now exists t, p.
Qed.

Lemma catalogue_price_number catalogue name pv :
  Forall priced_entry catalogue ->
  catalogue_price catalogue name = Some pv -> number pv <> None.
Proof.
  induction 1 as [| item rest [t [p [He Hn]]] Hrest IH]; cbn; [discriminate |].
  destruct (catalogue_price rest name) as [p' |]; [exact IH |].
  rewrite (proj2 (entry_subscript _ _ _ He)).
  destruct (titled name item); [| discriminate].
  now intros [= <-].
Qed.

Section Total.

Variable catalogue : list value.
Hypothesis catalogue_priced : Forall priced_entry catalogue.

Lemma number_as_num v n : number v = Some n -> as_num v = Some n.
Proof. destruct v; cbn; intros H; try discriminate H; exact H. Qed.

Lemma has_float_convert z :
  has_float z = true -> int_to_float z = Return (F64.of_Z z).
Proof.
  unfold has_float, int_to_float.
  destruct (F64.of_Z z); intros H; try discriminate H; reflexivity.
Qed.

Lemma add_product_amount total pv qv p q :
  number pv = Some p -> number qv = Some q -> in_range (p, q) = true ->
  add_product total pv qv = Return (F64.add total (amount (p, q))).
Proof.
  intros Hp Hq Hr. unfold add_product.
  rewrite (number_as_num _ _ Hp), (number_as_num _ _ Hq).
  destruct p as [x | f], q as [y | g]; cbn in Hr |- *;
    try rewrite (has_float_convert _ Hr); reflexivity.
Qed.

Variable product_prices : pydict.
Hypothesis product_prices_catalogue :
  forall name, dict_find product_prices (JStr name) = catalogue_price catalogue name.

Lemma sale_record_fields sale :
  sale_record sale ->
  exists name qv q,
    get sale "Product" = Return (JStr name)
    /\ get sale "Quantity" = Return qv
    /\ number qv = Some q
    /\ sale_fields sale = Some (name, q).
Proof.
  unfold sale_record, sale_fields.
  destruct sale as [| | | | | | ms]; try contradiction.
  cbn [get].
  destruct (member ms "Product") as [[| | | | name | |] |]; try contradiction.
  destruct (member ms "Quantity") as [qv |]; [| contradiction].
  destruct (number qv) as [q |] eqn:Hq; [| contradiction].
  intros _. exists name, qv, q. now rewrite Hq.
Qed.

(** One turn on a sale record: its cost is added when its product is in
    the catalogue, and a warning is printed when it is not. *)
Lemma sale_step_cost sale total out :
  sale_record sale ->
  match resolved catalogue sale with
  | Some pq => in_range pq = true
  | None => True
  end ->
  (is_resolved catalogue sale = false -> printable (product_name sale) = true) ->
  sale_step product_prices total sale out
  = if is_resolved catalogue sale
    then (Return (F64.add total (cost catalogue sale)), out)
    else (Return total, out ++ [warning (product_name sale)]).
Proof.
  intros Hsale Hrange Hprint.
  destruct (sale_record_fields sale Hsale) as [name [qv [q [Hp [Hq [Hn Hf]]]]]].
  unfold is_resolved, cost, product_name in *. unfold resolved in *.
  rewrite Hf in *. rewrite Hp in *.
  destruct (catalogue_price catalogue name) as [pv |] eqn:Hc.
  - destruct (number pv) as [p |] eqn:Hpv.
    + rewrite (sale_step_known _ _ _ (JStr name) qv pv); trivial.
      * now rewrite (add_product_amount total pv qv p q).
      * now rewrite product_prices_catalogue.
    + now apply (catalogue_price_number _ _ _ catalogue_priced) in Hc.
  - apply sale_step_unknown; auto.
    unfold dict_contains. cbn. now rewrite product_prices_catalogue, Hc.
Qed.

(** The loop adds the cost of each resolved sale to the total, in the
    order of the records, and warns about each other sale. *)
Lemma for_sales_sum sales : forall total out,
  Forall sale_record sales -> sales_in_range catalogue sales ->
  Forall (fun name => printable name = true) (unknown_products catalogue sales) ->
  for_sales product_prices total sales out
  = (Return (fold_left F64.add
               (map (cost catalogue) (filter (is_resolved catalogue) sales)) total),
     out ++ map warning (unknown_products catalogue sales)).
Proof.
  induction sales as [| sale rest IH]; intros total out Hrec Hrange Hprint.
  - cbn. now rewrite app_nil_r.
  - inversion Hrec as [| ? ? Hsale Hrest]; subst.
    inversion Hrange as [| ? ? Hin Hrange']; subst.
    unfold unknown_products in *. cbn [filter] in *.
    rewrite for_sales_cons.
    destruct (is_resolved catalogue sale) eqn:Hres; cbn [negb map fold_left] in *.
    + rewrite (sale_step_cost sale total out Hsale Hin)
        by (rewrite Hres; discriminate).
      rewrite Hres. now apply IH.
    + inversion Hprint as [| ? ? Hname Hprint']; subst.
      rewrite (sale_step_cost sale total out Hsale Hin) by (intros _; exact Hname).
      rewrite Hres, IH by assumption. now rewrite <- app_assoc.
Qed.

End Total.

(** C1, as the code has it: on a catalogue of entries with a title and a
    numeric price and a list of sales with a product and a numeric
    quantity, where no integer is beyond the range of [float] and the
    console can encode the name of every product that is not in the
    catalogue, [compute_total_cost] returns the sum, in record order, of
    price times quantity over exactly the sales whose product is in the
    catalogue; each other sale adds nothing and is named in one
    warning. *)
Theorem compute_total_cost_sum (catalogue sales : list value) (out : list line) :
  Forall priced_entry catalogue ->
  Forall sale_record sales ->
  sales_in_range catalogue sales ->
  Forall (fun name => printable name = true) (unknown_products catalogue sales) ->
  compute_total_cost (JList catalogue) (JList sales) out
  = (Return (sum_of_sales catalogue sales),
     out ++ map warning (unknown_products catalogue sales)).
Proof.
  intros Hcat Hsales Hrange Hprint.
  destruct (comprehension_string catalogue [] (priced_titled catalogue Hcat))
    as [d [Hd [_ Hf]]]; [constructor |].
  rewrite (compute_total_cost_loop catalogue d) by assumption.
  rewrite (for_sales_sum catalogue Hcat d); trivial.
  intros name. rewrite Hf. now destruct (catalogue_price catalogue name).
Qed.

(** ** Sums of integers in binary64 *)

(** A positive integer of at most 53 bits is a double, [float_of_pos];
    rounding a mantissa that is this integer followed by zeros gives it
    back, so the sum of two such doubles is the double of the sum. *)

Lemma shift_iter p d : Pos.iter xO p d = shift p (Pos.to_nat d).
Proof. unfold shift. apply Pos2Nat.inj_iter. Qed.

Lemma shift_add p m n : shift (shift p m) n = shift p (m + n).
Proof. unfold shift. rewrite Nat.add_comm. symmetry. apply Nat.iter_add. Qed.

Lemma shift_plus p q n : (shift p n + shift q n)%positive = shift (p + q) n.
Proof.
  induction n as [| n IH]; [reflexivity |].
  change ((xO (shift p n) + xO (shift q n))%positive = xO (shift (p + q) n)).
  cbn [Pos.add]. now rewrite IH.
Qed.

Lemma digits_shift p n :
  Z.pos (digits2_pos (shift p n)) = Z.pos (digits2_pos p) + Z.of_nat n.
Proof.
  induction n as [| n IH]; [cbn; lia |].
  change (shift p (S n)) with (xO (shift p n)). cbn [digits2_pos]. lia.
Qed.

Lemma digits_size p : digits2_pos p = Pos.size p.
Proof. induction p; cbn; congruence. Qed.

Lemma digits_le p : Z.pos p < 2 ^ 53 -> Z.pos (digits2_pos p) <= 53.
Proof.
  intros H. rewrite digits_size.
  pose proof (Pos.size_le p) as Hs.
  apply Pos2Z.pos_le_pos in Hs. rewrite Pos2Z.inj_pow in Hs.
  destruct (Z_le_gt_dec (Z.pos (Pos.size p)) 53) as [| Hgt]; [assumption | exfalso].
  assert (Hpow : 2 ^ 54 <= 2 ^ Z.pos (Pos.size p))
    by (apply Z.pow_le_mono_r; lia).
  change (Z.pos p~0) with (2 * Z.pos p) in Hs.
  change (2 ^ 54) with (2 * 2 ^ 53) in Hpow. lia.
Qed.

Lemma iter_pos_nat {A} (f : A -> A) n x : iter_pos f n x = Nat.iter (Pos.to_nat n) f x.
Proof.
  revert x. induction n as [n IH | n IH |]; intros x; cbn [iter_pos].
  - rewrite !IH, Pos2Nat.inj_xI.
    replace (S (2 * Pos.to_nat n)) with (Pos.to_nat n + (Pos.to_nat n + 1))%nat by lia.
    now rewrite !Nat.iter_add.
  - rewrite !IH, Pos2Nat.inj_xO.
    replace (2 * Pos.to_nat n)%nat with (Pos.to_nat n + Pos.to_nat n)%nat by lia.
    now rewrite Nat.iter_add.
  - reflexivity.
Qed.

(** Shifting out zeros loses nothing: the round and sticky bits stay clear. *)
Lemma shr_shift n : forall p j,
  Nat.iter n shr_1 (Build_shr_record (Z.pos (shift p (n + j))) false false)
  = Build_shr_record (Z.pos (shift p j)) false false.
Proof.
  induction n as [| n IH]; intros p j; [reflexivity |].
  rewrite Nat.iter_succ_r. cbn -[Nat.iter]. apply IH.
Qed.

(** Aligning a mantissa to a smaller exponent shifts it left. *)
Lemma shl_align_shift mx ex ex' :
  shl_align mx ex ex' = (shift mx (Z.to_nat (ex - ex')), Z.min ex ex').
Proof.
  unfold shl_align. destruct (ex' - ex) as [| d | d] eqn:E.
  - replace (ex - ex') with 0 by lia. cbn. f_equal. lia.
  - replace (Z.to_nat (ex - ex')) with 0%nat by lia. cbn. f_equal. lia.
  - replace (ex - ex') with (Z.pos d) by lia.
    rewrite shift_iter. cbn [Z.to_nat]. f_equal. lia.
Qed.

(** Shifting right [n] times, one bit at a time. *)
Lemma shr_nat mrs e n :
  shr mrs e n = (Nat.iter (Z.to_nat n) shr_1 mrs, e + Z.max 0 n).
Proof.
  destruct n as [| p | p]; cbn [shr Z.to_nat Nat.iter nat_rect].
  - f_equal. lia.
  - rewrite iter_pos_nat. f_equal.
  - f_equal. lia.
Qed.

Lemma fexp_small d : 1 <= d -> fexp 53 1024 d = d - 53.
Proof. intros H. unfold fexp, emin. lia. Qed.

Lemma shr_shift_eq n p k j :
  k = (n + j)%nat ->
  Nat.iter n shr_1 (Build_shr_record (Z.pos (shift p k)) false false)
  = Build_shr_record (Z.pos (shift p j)) false false.
Proof. intros ->. apply shr_shift. Qed.

Lemma shr_fexp_shift z k :
  Z.pos (digits2_pos z) <= 53 ->
  53 - Z.pos (digits2_pos z) <= Z.of_nat k ->
  shr_fexp 53 1024 (Z.pos (shift z k)) (- Z.of_nat k) loc_Exact
  = (Build_shr_record
       (Z.pos (shift z (Z.to_nat (53 - Z.pos (digits2_pos z))))) false false,
     Z.pos (digits2_pos z) - 53).
Proof.
  intros Hd Hk. unfold shr_fexp.
  cbn [Zdigits2 shr_record_of_loc]. rewrite digits_shift.
  rewrite fexp_small by lia. rewrite shr_nat.
  rewrite (shr_shift_eq _ z k (Z.to_nat (53 - Z.pos (digits2_pos z)))) by lia.
  f_equal. lia.
Qed.

Lemma binary_round_aux_shift z k :
  Z.pos (digits2_pos z) <= 53 ->
  53 - Z.pos (digits2_pos z) <= Z.of_nat k ->
  binary_round_aux 53 1024 false (Z.pos (shift z k)) (- Z.of_nat k) loc_Exact
  = float_of_pos z.
Proof.
  intros Hd Hk. unfold binary_round_aux.
  rewrite shr_fexp_shift by assumption.
  cbn [shr_m loc_of_shr_record round_nearest_even].
  set (j := Z.to_nat (53 - Z.pos (digits2_pos z))).
  replace (Z.pos (digits2_pos z) - 53) with (- Z.of_nat j) by (unfold j; lia).
  rewrite shr_fexp_shift by (unfold j; lia). fold j. cbn [shr_m].
  unfold float_of_pos, F64.prec. fold j.
  destruct (_ <=? _) eqn:E; [reflexivity | apply Z.leb_gt in E; lia].
Qed.

(** Rounding [z * 2 ^ k] at exponent [- k] is exact for [z] of at most 53
    bits. *)
Lemma binary_round_shift z k :
  Z.pos (digits2_pos z) <= 53 ->
  binary_round 53 1024 false (shift z k) (- Z.of_nat k) = float_of_pos z.
Proof.
  intros Hd. unfold binary_round.
  rewrite digits_shift, fexp_small, shl_align_shift, shift_add by lia.
  set (k' := (k + _)%nat).
  replace (Z.min _ _) with (- Z.of_nat k') by (unfold k'; lia).
  apply binary_round_aux_shift; [assumption | unfold k'; lia].
Qed.

Lemma of_Z_pos p : Z.pos p < 2 ^ 53 -> F64.of_Z (Z.pos p) = float_of_pos p.
Proof. intros H. apply (binary_round_shift p 0). now apply digits_le. Qed.

Lemma add_float_of_pos a b :
  Z.pos a + Z.pos b < 2 ^ 53 ->
  F64.add (float_of_pos a) (float_of_pos b) = float_of_pos (a + b).
Proof.
  intros H.
  assert (Ha : Z.pos (digits2_pos a) <= 53) by (apply digits_le; lia).
  assert (Hb : Z.pos (digits2_pos b) <= 53) by (apply digits_le; lia).
  assert (Hab : Z.pos (digits2_pos (a + b)) <= 53)
    by (apply digits_le; rewrite Pos2Z.inj_add; lia).
  unfold F64.add, float_of_pos, F64.prec. cbn [SFadd].
  rewrite !shl_align_shift. cbn [fst cond_Zopp]. rewrite !shift_add.
  set (ez := Z.min _ _).
  set (k := Z.to_nat (- ez)).
  replace (_ + _)%nat with k by (unfold k, ez; lia).
  replace (Z.to_nat (53 - Z.pos (digits2_pos b)) + _)%nat with k
    by (unfold k, ez; lia).
  rewrite <- Pos2Z.inj_add, shift_plus.
  replace ez with (- Z.of_nat k) by (unfold k, ez; lia).
  cbn [binary_normalize].
  now apply binary_round_shift.
Qed.

(** Adding two non-negative integers as floats is exact below [2 ^ 53]. *)
Lemma add_of_Z a b :
  0 <= a -> 0 <= b -> a + b < 2 ^ 53 ->
  F64.add (F64.of_Z a) (F64.of_Z b) = F64.of_Z (a + b).
Proof.
  intros Ha Hb H.
  destruct a as [| a | a]; [| | lia]; destruct b as [| b | b]; try lia.
  - reflexivity.
  - cbn [Z.add]. rewrite of_Z_pos by lia. reflexivity.
  - cbn [Z.add]. rewrite of_Z_pos by lia. reflexivity.
  - rewrite !of_Z_pos by lia. cbn [Z.add]. rewrite of_Z_pos by lia.
    now apply add_float_of_pos.
Qed.

Lemma has_float_small z : 0 <= z < 2 ^ 53 -> has_float z = true.
Proof.
  intros [H0 H]. unfold has_float. destruct z as [| p | p]; [reflexivity | | lia].
  now rewrite of_Z_pos.
Qed.

(** ** The total of integer amounts *)

Lemma int_amount_cost catalogue sale z :
  int_amount catalogue sale = Some z ->
  0 <= z
  /\ is_resolved catalogue sale = true
  /\ cost catalogue sale = F64.of_Z z
  /\ (z < 2 ^ 53 ->
      match resolved catalogue sale with
      | Some pq => in_range pq = true
      | None => True
      end).
Proof.
  unfold int_amount, is_resolved, cost.
  destruct (resolved catalogue sale) as [[[p | f] [q | g]] |]; try discriminate.
  destruct (0 <=? p) eqn:Hp; [| discriminate].
  destruct (0 <=? q) eqn:Hq; [| discriminate].
  apply Z.leb_le in Hp, Hq. cbn [andb]. intros [= <-].
  repeat split; [nia |]. intros H. apply has_float_small. nia.
Qed.

Lemma exact_total_nonneg catalogue sales : 0 <= exact_total catalogue sales.
Proof.
  induction sales as [| sale rest IH]; cbn; [lia |].
  destruct (int_amount catalogue sale) as [z |] eqn:E; [| exact IH].
  destruct (int_amount_cost _ _ _ E) as [Hz _]. lia.
Qed.

Lemma exact_total_perm catalogue sales sales' :
  Permutation sales sales' ->
  exact_total catalogue sales = exact_total catalogue sales'.
Proof.
  induction 1 as [| x l l' _ IH | x y l | l l' l'' _ IH1 _ IH2]; cbn.
  - reflexivity.
  - now rewrite IH.
  - destruct (int_amount catalogue x), (int_amount catalogue y); lia.
  - congruence.
Qed.

Lemma int_sales_in_range catalogue sales :
  Forall (int_sale catalogue) sales ->
  exact_total catalogue sales < 2 ^ 53 ->
  sales_in_range catalogue sales.
Proof.
  unfold sales_in_range.
  induction 1 as [| sale rest Hsale Hrest IH]; cbn; intros Hlt; constructor.
  - unfold int_sale in Hsale.
    destruct (int_amount catalogue sale) as [z |] eqn:E; [| contradiction].
    destruct (int_amount_cost _ _ _ E) as [_ [_ [_ Hin]]].
    apply Hin. pose proof (exact_total_nonneg catalogue rest). lia.
  - apply IH. destruct (int_amount catalogue sale) as [z |] eqn:E; [| exact Hlt].
    destruct (int_amount_cost _ _ _ E) as [Hz _]. lia.
Qed.

Lemma int_sales_resolved catalogue sales :
  Forall (int_sale catalogue) sales ->
  filter (is_resolved catalogue) sales = sales
  /\ unknown_products catalogue sales = [].
Proof.
  unfold unknown_products.
  induction 1 as [| sale rest Hsale Hrest [IH1 IH2]]; [split; reflexivity |].
  unfold int_sale in Hsale.
  destruct (int_amount catalogue sale) as [z |] eqn:E; [| contradiction].
  destruct (int_amount_cost _ _ _ E) as [_ [Hr _]].
  cbn [filter]. rewrite Hr. cbn [negb]. now rewrite IH1, IH2.
Qed.

(** From an exact integer total, the float total of integer amounts stays
    exact as long as the sum is below [2 ^ 53]. *)
Lemma fold_add_exact catalogue sales : forall acc,
  Forall (int_sale catalogue) sales ->
  0 <= acc -> acc + exact_total catalogue sales < 2 ^ 53 ->
  fold_left F64.add (map (cost catalogue) sales) (F64.of_Z acc)
  = F64.of_Z (acc + exact_total catalogue sales).
Proof.
  induction sales as [| sale rest IH]; intros acc Hall Hacc Hlt; cbn.
  - f_equal. lia.
  - inversion Hall as [| ? ? Hsale Hrest]; subst. unfold int_sale in Hsale.
    cbn in Hlt.
    destruct (int_amount catalogue sale) as [z |] eqn:E; [| contradiction].
    destruct (int_amount_cost _ _ _ E) as [Hz [_ [Hc _]]].
    pose proof (exact_total_nonneg catalogue rest) as Hn.
    rewrite Hc, add_of_Z by lia.
    rewrite IH by (trivial; lia). f_equal. lia.
Qed.

Lemma compute_total_cost_integers catalogue sales out :
  Forall priced_entry catalogue ->
  Forall sale_record sales ->
  Forall (int_sale catalogue) sales ->
  exact_total catalogue sales < 2 ^ 53 ->
  compute_total_cost (JList catalogue) (JList sales) out
  = (Return (F64.of_Z (exact_total catalogue sales)), out).
Proof.
  intros Hcat Hsales Hint Hlt.
  destruct (comprehension_string catalogue [] (priced_titled catalogue Hcat))
    as [d [Hd [_ Hf]]]; [constructor |].
  rewrite (compute_total_cost_loop catalogue d) by assumption.
  destruct (int_sales_resolved catalogue sales Hint) as [Hall Hnone].
  rewrite (for_sales_sum catalogue Hcat d); trivial.
  - rewrite Hall, Hnone, app_nil_r. f_equal. f_equal.
    apply (fold_add_exact catalogue sales 0); trivial; lia.
  - intros name. rewrite Hf. now destruct (catalogue_price catalogue name).
  - now apply int_sales_in_range.
  - rewrite Hnone. constructor.
Qed.

(** C2, as the code has it: when every sale is of a product in the
    catalogue, every price and quantity is a non-negative integer and the
    sum of price times quantity is below [2 ^ 53], the total is that sum
    exactly, for the records in any order. *)
Theorem total_order_independent_integers
  (catalogue sales sales' : list value) (out : list line) :
  Forall priced_entry catalogue ->
  Forall sale_record sales ->
  Forall (int_sale catalogue) sales ->
  exact_total catalogue sales < 2 ^ 53 ->
  Permutation sales sales' ->
  compute_total_cost (JList catalogue) (JList sales') out
  = compute_total_cost (JList catalogue) (JList sales) out
  /\ compute_total_cost (JList catalogue) (JList sales) out
     = (Return (F64.of_Z (exact_total catalogue sales)), out).
Proof.
  intros Hcat Hsales Hint Hlt Hperm.
  rewrite (compute_total_cost_integers catalogue sales out) by assumption.
  split; [| reflexivity].
  rewrite (exact_total_perm catalogue sales sales' Hperm) in *.
  apply compute_total_cost_integers; trivial.
  - now apply (Permutation_Forall Hperm).
  - now apply (Permutation_Forall Hperm).
Qed.

(** * Further properties of the code *)

(** ** An empty catalogue *)

Lemma for_sales_empty_mapping sales : forall total out,
  Forall object_sale sales ->
  Forall (fun name => printable name = true) (map product_name sales) ->
  for_sales [] total sales out
  = (Return total, out ++ map warning (map product_name sales)).
Proof.
  induction sales as [| sale rest IH]; intros total out Hall Hprint.
  - cbn. now rewrite app_nil_r.
  - inversion Hall as [| ? ? [name [Hget Hhash]] Hrest]; subst.
    cbn [map] in *. inversion Hprint as [| ? ? Hname Hprint']; subst.
    replace (product_name sale) with name in *
      by (unfold product_name; now rewrite Hget).
    rewrite for_sales_cons, (sale_step_unknown _ _ _ name); trivial.
    + rewrite IH by assumption. now rewrite <- app_assoc.
    + unfold dict_contains. now rewrite Hhash.
Qed.

(** X2: with an empty catalogue nothing is priced: for sales that are
    objects with a hashable product name that the console can encode, the
    total is [0.0] and every record is warned about, in the order of the
    records. *)
Theorem empty_catalogue_warns_all (sales : list value) (out : list line) :
  Forall object_sale sales ->
  Forall (fun name => printable name = true) (map product_name sales) ->
  compute_total_cost (JList []) (JList sales) out
  = (Return F64.zero, out ++ map warning (map product_name sales)).
Proof.
  intros Hall Hprint. rewrite (compute_total_cost_loop [] []) by reflexivity.
  now apply for_sales_empty_mapping.
Qed.

(** ** Sales that are not records *)

Lemma get_not_object sale k :
  (forall ms, sale <> JDict ms) -> get sale k = Raise AttributeError.
Proof.
  intros H. destruct sale; try reflexivity. now destruct (H members).
Qed.

(** X3: an element of the sales list that is not an object (a number, a
    string, a list, [null]) ends the computation with [AttributeError]:
    the records before it have had their effect on the console, the
    records after it are not looked at, and no total is returned. *)
Theorem sale_not_object_aborts
  (catalogue : list value) (before after : list value) (sale : value)
  (total : float) (out out' : list line) :
  compute_total_cost (JList catalogue) (JList before) out = (Return total, out') ->
  (forall ms, sale <> JDict ms) ->
  compute_total_cost (JList catalogue) (JList (before ++ sale :: after)) out
  = (Raise AttributeError, out').
Proof.
  intros Hbefore Hsale.
  destruct (comprehension catalogue []) as [d | e] eqn:Hd.
  - rewrite (compute_total_cost_loop catalogue d) in * by assumption.
    rewrite for_sales_app, Hbefore, for_sales_cons.
    unfold sale_step, bind, lift.
    now rewrite (get_not_object sale "Product" Hsale).
  - unfold compute_total_cost, bind, lift in Hbefore. cbn [iterate] in Hbefore.
    rewrite Hd in Hbefore. discriminate.
Qed.

(** X4: a sale whose product name is a list or an object cannot be looked
    up in the mapping: the membership test raises [TypeError], after the
    effect of the records before it and without a look at the ones
    after. *)
Theorem sale_unhashable_product_aborts
  (catalogue : list value) (before after : list value)
  (ms : list (string * value)) (name : value)
  (total : float) (out out' : list line) :
  compute_total_cost (JList catalogue) (JList before) out = (Return total, out') ->
  member ms "Product" = Some name ->
  hashable name = false ->
  compute_total_cost (JList catalogue) (JList (before ++ JDict ms :: after)) out
  = (Raise TypeError, out').
Proof.
  intros Hbefore Hname Hhash.
  destruct (comprehension catalogue []) as [d | e] eqn:Hd.
  - rewrite (compute_total_cost_loop catalogue d) in * by assumption.
    rewrite for_sales_app, Hbefore, for_sales_cons.
    unfold sale_step, bind, lift, dict_contains. cbn [get].
    now rewrite Hname, Hhash.
  - unfold compute_total_cost, bind, lift in Hbefore. cbn [iterate] in Hbefore.
    rewrite Hd in Hbefore. discriminate.
Qed.

(** X1: a sale whose product is not a key of the mapping and whose name
    the console cannot encode is not skipped: the [print] of its warning
    raises [UnicodeEncodeError], after the effect of the records before
    it, with nothing printed for it and without a look at the records
    after it. *)
Theorem sale_unencodable_name_aborts
  (catalogue : list value) (product_prices : pydict)
  (before after : list value) (sale name : value)
  (total : float) (out out' : list line) :
  comprehension catalogue [] = Return product_prices ->
  compute_total_cost (JList catalogue) (JList before) out = (Return total, out') ->
  get sale "Product" = Return name ->
  dict_contains product_prices name = Return false ->
  printable name = false ->
  compute_total_cost (JList catalogue) (JList (before ++ sale :: after)) out
  = (Raise UnicodeEncodeError, out').
Proof.
  intros Hd Hbefore Hget Hin Hp.
  rewrite (compute_total_cost_loop catalogue product_prices) in * by assumption.
  rewrite for_sales_app, Hbefore, for_sales_cons.
  now rewrite (sale_step_absent _ _ _ name), Hp.
Qed.

(** The statement that adds to the total raises when an operand is not a
    number, and [main] has no handler for what it raises. *)
Lemma add_product_not_number total price quantity :
  as_num price = None \/ as_num quantity = None ->
  exists e, add_product total price quantity = Raise e /\ unhandled e.
Proof.
  intros H. unfold add_product.
  assert (Hun : forall seq n, unhandled (repeat_error seq n)).
  { intros seq n. unfold repeat_error.
    destruct (_ || _); [exact I |]. destruct (_ || _); [exact I |].
    now destruct (repeats seq n). }
  destruct (as_num price) as [p |], (as_num quantity) as [q |];
    try (destruct H; discriminate);
    (eexists; split; [reflexivity |];
     destruct (sequence_and_count price quantity) as [[seq n] |];
     [apply Hun | exact I]).
Qed.

(** X5: a sale of a product in the mapping whose price or whose quantity
    is not a number ([null], a string, a list, an object) is not skipped:
    the statement that adds to the total raises an exception that [main]
    does not handle, after the effect of the records before it and
    without a look at the ones after. *)
Theorem sale_without_number_aborts
  (catalogue : list value) (product_prices : pydict)
  (before after : list value) (ms : list (string * value))
  (name price quantity : value) (total : float) (out out' : list line) :
  comprehension catalogue [] = Return product_prices ->
  compute_total_cost (JList catalogue) (JList before) out = (Return total, out') ->
  get (JDict ms) "Product" = Return name ->
  get (JDict ms) "Quantity" = Return quantity ->
  dict_getitem product_prices name = Return price ->
  as_num price = None \/ as_num quantity = None ->
  exists e,
    compute_total_cost (JList catalogue) (JList (before ++ JDict ms :: after)) out
    = (Raise e, out')
    /\ unhandled e.
Proof.
  intros Hd Hbefore Hname Hq Hprice Hnum.
  assert (Hin : dict_contains product_prices name = Return true).
  { unfold dict_getitem in Hprice. unfold dict_contains.
    destruct (hashable name); [| discriminate].
    now destruct (dict_find product_prices name). }
  rewrite (compute_total_cost_loop catalogue product_prices) in * by assumption.
  rewrite for_sales_app, Hbefore, for_sales_cons.
  unfold sale_step, bind, lift. rewrite Hname, Hq, Hin, Hprice.
  destruct (add_product_not_number total price quantity Hnum) as [e [He Hun]].
  exists e. now rewrite He.
Qed.

(** ** The exceptions of the computation *)

Lemma subscript_error item k e :
  subscript item k = Raise e -> computation_error e.
Proof.
  destruct item; cbn; try (intros [= <-]; exact I).
  destruct (member members k); [discriminate | intros [= <-]; exact I].
Qed.

Lemma comprehension_error items : forall d e,
  comprehension items d = Raise e -> computation_error e.
Proof.
  induction items as [| item rest IH]; intros d e; cbn [comprehension];
    [discriminate |].
  destruct (subscript item "title") as [k | e1] eqn:Ek;
    [| cbn; intros [= <-]; now apply subscript_error in Ek].
  destruct (subscript item "price") as [v | e2] eqn:Ev;
    [| cbn; intros [= <-]; now apply subscript_error in Ev].
  cbn. unfold dict_setitem. destruct (hashable k); cbn.
  - apply IH.
  - intros [= <-]. exact I.
Qed.

Lemma iterate_error v e : iterate v = Raise e -> e = TypeError.
Proof. destruct v; cbn; congruence. Qed.

Lemma add_product_error total price quantity e :
  add_product total price quantity = Raise e -> computation_error e.
Proof.
  unfold add_product, num_mul, float_add_num, int_to_float.
  destruct (as_num price) as [[x | f] |], (as_num quantity) as [[y | g] |]; cbn;
    repeat match goal with
      | |- context [match F64.of_Z ?z with _ => _ end] =>
          destruct (F64.of_Z z); cbn
      end;
    try discriminate; intros [= <-]; try exact I;
    (destruct (sequence_and_count price quantity) as [[seq n] |]; [| exact I];
     unfold repeat_error;
     destruct (_ || _); [exact I |]; destruct (_ || _); [exact I |];
     now destruct (repeats seq n)).
Qed.

Lemma sale_step_error d total sale out e out' :
  sale_step d total sale out = (Raise e, out') -> computation_error e.
Proof.
  unfold sale_step, bind, lift, ret, dict_contains, dict_getitem.
  destruct sale; cbn; try (intros [= <- _]; exact I).
  destruct (hashable _); cbn; [| intros [= <- _]; exact I].
  destruct (dict_find d _) as [price |]; cbn.
  - intros [= H _]. now apply add_product_error in H.
  - unfold print. destruct (forallb encodable _);
      [discriminate | intros [= <- _]; exact I].
Qed.

Lemma for_sales_error d sales : forall total out e out',
  for_sales d total sales out = (Raise e, out') -> computation_error e.
Proof.
  induction sales as [| sale rest IH]; intros total out e out';
    [discriminate |].
  rewrite for_sales_cons.
  destruct (sale_step d total sale out) as [[total' | e1] out1] eqn:Hs.
  - apply IH.
  - intros [= <- _]. now apply sale_step_error in Hs.
Qed.

Lemma compute_total_cost_error pc sr out e out' :
  compute_total_cost pc sr out = (Raise e, out') -> computation_error e.
Proof.
  unfold compute_total_cost, bind, lift.
  destruct (iterate pc) as [items | e1] eqn:Ei;
    [| intros [= <- _]; now rewrite (iterate_error _ _ Ei)].
  destruct (comprehension items []) as [d | e2] eqn:Ec;
    [| intros [= <- _]; now apply comprehension_error in Ec].
  destruct (iterate sr) as [sales | e3] eqn:Es;
    [| intros [= <- _]; now rewrite (iterate_error _ _ Es)].
  apply for_sales_error.
Qed.

(** X6: an exception of [compute_total_cost] is a [KeyError], a
    [TypeError], an [AttributeError], an [OverflowError], a [MemoryError]
    or a [UnicodeEncodeError], none of which [main] handles: the run ends
    with the exception uncaught, the console holds the warnings printed
    until then and no total line, and no results file is written. *)
Theorem main_computation_error
  (prog cf sf : string) (w : world) (price_catalogue sales_record : value)
  (e : exn) (out : list line) :
  load w cf = Return price_catalogue ->
  load w sf = Return sales_record ->
  compute_total_cost price_catalogue sales_record [] = (Raise e, out) ->
  computation_error e
  /\ main [prog; cf; sf] w
     = {| console := out; results_file := None; status := Uncaught e |}.
Proof.
  intros Hcf Hsf Hc.
  pose proof (compute_total_cost_error _ _ _ _ _ Hc) as He.
  split; [exact He |].
  unfold main. cbn [List.length Nat.eqb negb nth].
  unfold try_body, bind, lift. rewrite Hcf, Hsf, Hc.
  destruct e; try reflexivity; destruct He.
Qed.

(** ** Documents that are not arrays *)

(** X7: a sales document that is not an array is iterated all the same:
    a number, a boolean or [null] raises [TypeError]; an object or a
    string with something in it raises [AttributeError] at its first key
    or character; an empty object or string gives the total [0.0].  In
    no case is anything printed. *)
Theorem sales_record_not_a_list
  (catalogue : list value) (product_prices : pydict)
  (sales_record : value) (out : list line) :
  comprehension catalogue [] = Return product_prices ->
  (forall sales, sales_record <> JList sales) ->
  compute_total_cost (JList catalogue) sales_record out
  = (match sales_record with
     | JDict [] | JStr EmptyString => Return F64.zero
     | JDict _ | JStr _ => Raise AttributeError
     | _ => Raise TypeError
     end, out).
Proof.
  intros Hd Hnot. unfold compute_total_cost, bind, lift. cbn [iterate].
  rewrite Hd.
  destruct sales_record as [| b | z | f | s | l | ms]; try reflexivity.
  - destruct s; reflexivity.
  - now destruct (Hnot l).
  - destruct ms as [| [k v] ms]; reflexivity.
Qed.

(** X8: a catalogue document that is not an array: an empty object or
    string is an empty catalogue; anything else raises [TypeError], a
    number for not being iterable, an object or a string because its keys
    or characters cannot be indexed by ['title'].  Nothing is printed and
    the sales are not looked at. *)
Theorem price_catalogue_not_a_list
  (price_catalogue sales_record : value) (out : list line) :
  (forall items, price_catalogue <> JList items) ->
  compute_total_cost price_catalogue sales_record out
  = match price_catalogue with
    | JDict [] | JStr EmptyString => compute_total_cost (JList []) sales_record out
    | _ => (Raise TypeError, out)
    end.
Proof.
  intros Hnot. unfold compute_total_cost, bind, lift.
  destruct price_catalogue as [| b | z | f | s | l | ms]; try reflexivity.
  - destruct s; reflexivity.
  - now destruct (Hnot l).
  - destruct ms as [| [k v] ms]; reflexivity.
Qed.

(** ** The titles of the catalogue *)

Lemma titled_title name item : titled name item = true <-> title item = Some name.
Proof.
  unfold titled, title.
  destruct (subscript item "title") as [[| | | | t | |] | e];
    try (split; discriminate).
  rewrite String.eqb_eq. split; congruence.
Qed.

Lemma catalogue_price_known catalogue name :
  Forall titled_entry catalogue ->
  match catalogue_price catalogue name with Some _ => true | None => false end
  = existsb (titled name) catalogue.
Proof.
  induction 1 as [| item rest [t [p He]] Hrest IH]; [reflexivity |].
  cbn [catalogue_price existsb]. rewrite <- IH.
  destruct (catalogue_price rest name); [now rewrite orb_true_r |].
  rewrite (proj2 (entry_subscript _ _ _ He)).
  now destruct (titled name item).
Qed.

(** X9: for a catalogue of entries with a string title and a price, the
    mapping is built without an exception and a product name is one of
    its keys exactly when some entry of the catalogue has that title. *)
Theorem product_known_iff_titled (catalogue : list value) :
  Forall titled_entry catalogue ->
  exists product_prices,
    comprehension catalogue [] = Return product_prices
    /\ forall name,
         dict_contains product_prices (JStr name)
         = Return (existsb (titled name) catalogue).
Proof.
  intros Hall.
  destruct (comprehension_string catalogue [] Hall) as [d [Hd [_ Hf]]];
    [constructor |].
  exists d. split; [exact Hd |]. intros name.
  unfold dict_contains. cbn [hashable]. rewrite Hf.
  rewrite <- (catalogue_price_known catalogue name Hall).
  now destruct (catalogue_price catalogue name).
Qed.

(** ** The order of the catalogue *)

Lemma catalogue_price_in catalogue name p :
  catalogue_price catalogue name = Some p ->
  exists item, In item catalogue /\ titled name item = true
               /\ subscript item "price" = Return p.
Proof.
  induction catalogue as [| item rest IH]; cbn; [discriminate |].
  destruct (catalogue_price rest name) as [p' |].
  - intros [= <-]. destruct (IH eq_refl) as [i [Hin Hi]]. exists i. auto.
  - destruct (titled name item) eqn:Ht; [| discriminate].
    destruct (subscript item "price") as [p' | e] eqn:Hp; [| discriminate].
    intros [= <-]. exists item. auto.
Qed.

Lemma catalogue_price_unique catalogue item name p :
  NoDup (map title catalogue) ->
  In item catalogue -> titled name item = true ->
  subscript item "price" = Return p ->
  catalogue_price catalogue name = Some p.
Proof.
  induction catalogue as [| i rest IH]; intros Hnd Hin Ht Hp; [destruct Hin |].
  cbn [map] in Hnd. inversion Hnd as [| ? ? Hfresh Hnd']; subst.
  cbn [catalogue_price]. destruct Hin as [-> | Hin].
  - destruct (catalogue_price rest name) as [p' |] eqn:Hrest.
    + exfalso. apply Hfresh.
      destruct (catalogue_price_in _ _ _ Hrest) as [j [Hj [Htj _]]].
      apply titled_title in Ht, Htj. rewrite Ht, <- Htj. now apply in_map.
    + now rewrite Ht, Hp.
  - now rewrite (IH Hnd' Hin Ht Hp).
Qed.

Lemma catalogue_price_perm catalogue catalogue' name :
  NoDup (map title catalogue) ->
  Permutation catalogue catalogue' ->
  catalogue_price catalogue name = catalogue_price catalogue' name.
Proof.
  intros Hnd Hperm.
  assert (Hnd' : NoDup (map title catalogue'))
    by (eapply Permutation_NoDup; [apply Permutation_map; exact Hperm | exact Hnd]).
  destruct (catalogue_price catalogue name) as [p |] eqn:E.
  - destruct (catalogue_price_in _ _ _ E) as [item [Hin [Ht Hp]]].
    symmetry. apply (catalogue_price_unique catalogue' item); trivial.
    now apply (Permutation_in _ Hperm).
  - destruct (catalogue_price catalogue' name) as [p |] eqn:E'; [| reflexivity].
    destruct (catalogue_price_in _ _ _ E') as [item [Hin [Ht Hp]]].
    rewrite <- E.
    apply (catalogue_price_unique catalogue item); trivial.
    now apply (Permutation_in _ (Permutation_sym Hperm)).
Qed.

Lemma string_keyed_find d k :
  string_keyed d -> (forall s, k <> JStr s) -> dict_find d k = None.
Proof.
  intros Hd Hk. induction Hd as [| [k' v] rest [s Hs] _ IH]; [reflexivity |].
  cbn in Hs. subst k'. cbn [dict_find].
  replace (key_eqb (JStr s) k) with false; [exact IH |].
  destruct k; try reflexivity. now destruct (Hk s0).
Qed.

Lemma sale_step_ext d d' total sale out :
  (forall k, dict_find d k = dict_find d' k) ->
  sale_step d total sale out = sale_step d' total sale out.
Proof.
  intros H. unfold sale_step, bind, lift, dict_contains, dict_getitem.
  destruct (get sale "Product") as [name | e]; [| reflexivity].
  destruct (get sale "Quantity") as [quantity | e]; [| reflexivity].
  now rewrite H.
Qed.

Lemma for_sales_ext d d' sales : forall total out,
  (forall k, dict_find d k = dict_find d' k) ->
  for_sales d total sales out = for_sales d' total sales out.
Proof.
  induction sales as [| sale rest IH]; intros total out H; [reflexivity |].
  rewrite !for_sales_cons, (sale_step_ext d d' total sale out H).
  destruct (sale_step d' total sale out) as [[total' | e] out']; auto.
Qed.

(** X10: when the entries of the catalogue have a string title and a
    price and no two have the same title, the order of the entries does
    not matter: on any sales document and console, [compute_total_cost]
    does the same for every permutation of the catalogue. *)
Theorem catalogue_order_irrelevant
  (catalogue catalogue' : list value) (sales_record : value) (out : list line) :
  Forall titled_entry catalogue ->
  NoDup (map title catalogue) ->
  Permutation catalogue catalogue' ->
  compute_total_cost (JList catalogue') sales_record out
  = compute_total_cost (JList catalogue) sales_record out.
Proof.
  intros Hall Hnd Hperm.
  assert (Hall' : Forall titled_entry catalogue')
    by now apply (Permutation_Forall Hperm).
  destruct (comprehension_string catalogue [] Hall) as [d [Hd [Hk Hf]]];
    [constructor |].
  destruct (comprehension_string catalogue' [] Hall') as [d' [Hd' [Hk' Hf']]];
    [constructor |].
  unfold compute_total_cost, bind, lift. cbn [iterate]. rewrite Hd, Hd'.
  destruct (iterate sales_record) as [sales | e]; [| reflexivity].
  apply for_sales_ext. intros k.
  destruct k as [| b | z | f | name | l | ms];
    try (rewrite !string_keyed_find; trivial; discriminate).
  rewrite Hf, Hf', (catalogue_price_perm catalogue catalogue' name Hnd Hperm).
  reflexivity.
Qed.

(** ** The results file *)

Ltac written_none := try reflexivity; apply handled_no_file.

(** X11: [main] writes [SalesResults.txt] in exactly one case: two
    positional arguments, both files load, [compute_total_cost] returns,
    and the results file can be opened. *)
Theorem main_writes_results_iff (argv : list string) (w : world) :
  results_file (main argv w) <> None
  <-> List.length argv = 3%nat
      /\ exists price_catalogue sales_record total out,
           load w (nth 1 argv "") = Return price_catalogue
           /\ load w (nth 2 argv "") = Return sales_record
           /\ compute_total_cost price_catalogue sales_record [] = (Return total, out)
           /\ open_results w = None.
Proof.
  split.
  - unfold main. destruct (Nat.eqb (List.length argv) 3) eqn:Hlen; cbn [negb];
      [| intros H; now destruct H].
    apply Nat.eqb_eq in Hlen. unfold try_body, bind, lift.
    destruct (load w (nth 1 argv "")) as [pc | e1];
      [| intros H; exfalso; apply H; destruct e1; written_none].
    destruct (load w (nth 2 argv "")) as [sr | e2];
      [| intros H; exfalso; apply H; destruct e2; written_none].
    destruct (compute_total_cost pc sr []) as [[total | e3] out] eqn:Hc;
      [| intros H; exfalso; apply H; destruct e3; written_none].
    rewrite print_encodable by reflexivity. unfold raise, ret.
    destruct (open_results w) as [e4 |];
      [intros H; exfalso; apply H; destruct e4; written_none |].
    intros _. split; [exact Hlen |]. exists pc, sr, total, out.
    repeat split; trivial.
  - intros [Hlen [pc [sr [total [out [Hcf [Hsf [Hc Hopen]]]]]]]].
    unfold main. apply Nat.eqb_eq in Hlen. rewrite Hlen. cbn [negb].
    unfold try_body, bind, lift, ret. rewrite Hcf, Hsf, Hc.
    rewrite print_encodable by reflexivity. rewrite Hopen. discriminate.
Qed.

(** X12: a results file that is written has exactly two lines: the total
    line, which is also the last line on the console, and the time line
    with the difference of the two readings of the clock; and the run
    that wrote it finished normally. *)
Theorem main_results_file_content
  (argv : list string) (w : world) (written : list line) :
  results_file (main argv w) = Some written ->
  status (main argv w) = Finished
  /\ exists total,
       last (console (main argv w)) [] = total_line total
       /\ written = [total_line total;
                     time_line (F64.sub (clock_end w) (clock_start w))].
Proof.
  intros H. split.
  - revert H. unfold main.
    destruct (negb (Nat.eqb (List.length argv) 3)); [discriminate |].
    destruct (try_body _ _ _ _) as [[l | e] out]; [reflexivity |].
    destruct e; no_file.
  - destruct (main_results_file argv w written H)
      as [pc [sr [total [out [_ [_ [_ [Hconsole Hwritten]]]]]]]].
    exists total. split; [| exact Hwritten].
    rewrite Hconsole. apply last_last.
Qed.

(** X13: when both files load and [compute_total_cost] returns but
    [SalesResults.txt] cannot be opened, the total is on the console all
    the same, after the warnings, and no file is written; a
    [FileNotFoundError] is then reported in an error line and the run
    finishes, unless the console cannot encode its message and the
    [print] of the handler raises [UnicodeEncodeError]; any other
    exception of [open] is left uncaught. *)
Theorem main_results_unwritable
  (prog cf sf : string) (w : world) (price_catalogue sales_record : value)
  (total : float) (out : list line) (e : exn) :
  load w cf = Return price_catalogue ->
  load w sf = Return sales_record ->
  compute_total_cost price_catalogue sales_record [] = (Return total, out) ->
  open_results w = Some e ->
  results_file (main [prog; cf; sf] w) = None
  /\ firstn (S (List.length out)) (console (main [prog; cf; sf] w))
     = out ++ [total_line total]
  /\ (forall msg, e = FileNotFoundError msg -> encodes msg = true ->
        console (main [prog; cf; sf] w)
        = out ++ [total_line total] ++ [[Text "Error: "; Str (JStr msg)]]
        /\ status (main [prog; cf; sf] w) = Finished)
  /\ (forall msg, e = FileNotFoundError msg -> encodes msg = false ->
        console (main [prog; cf; sf] w) = out ++ [total_line total]
        /\ status (main [prog; cf; sf] w) = Uncaught UnicodeEncodeError)
  /\ (unhandled e ->
        console (main [prog; cf; sf] w) = out ++ [total_line total]
        /\ status (main [prog; cf; sf] w) = Uncaught e).
Proof.
  intros Hcf Hsf Hc Hopen.
  assert (Hbody : try_body w cf sf [] = (Raise e, out ++ [total_line total])).
  { unfold try_body, bind, lift, raise. rewrite Hcf, Hsf, Hc.
    rewrite print_encodable by reflexivity. now rewrite Hopen. }
  assert (Hfirst : forall tail,
             firstn (S (List.length out)) ((out ++ [total_line total]) ++ tail)
             = out ++ [total_line total]).
  { intros tail.
    replace (S (List.length out)) with (List.length (out ++ [total_line total]) + 0)%nat
      by (rewrite length_app; cbn; lia).
    rewrite firstn_app_2. cbn. now rewrite app_nil_r. }
  assert (Hself : firstn (S (List.length out)) (out ++ [total_line total])
                  = out ++ [total_line total]).
  { rewrite <- (app_nil_r (out ++ [total_line total])) at 1. apply Hfirst. }
  assert (Hhandled : forall l,
             firstn (S (List.length out))
               (console (handled l (out ++ [total_line total])))
             = out ++ [total_line total]).
  { intros l. unfold handled, print.
    destruct (forallb encodable l); cbn [console]; [apply Hfirst | exact Hself]. }
  unfold main. cbn [List.length Nat.eqb negb nth]. rewrite Hbody.
  split; [| split; [| split; [| split]]].
  - destruct e; try reflexivity; apply handled_no_file.
  - destruct e; cbn [console]; try exact Hself; apply Hhandled.
  - intros msg -> Hmsg. rewrite handled_encodable by assumption. cbn.
    now rewrite <- app_assoc.
  - intros msg -> Hmsg. now rewrite handled_unencodable.
  - intros He. destruct e; try (split; reflexivity); contradiction.
Qed.

(** X14: end to end, on two files that hold a catalogue of entries with
    a title and a numeric price and sales with a product and a numeric
    quantity, within the range of [float] and with unknown product names
    that the console can encode: the console shows one warning
    for each sale of an unknown product, in record order, then the total
    line with the sum over the other sales; the results file holds that
    total line and the time line; the run finishes normally. *)
Theorem main_reports_sum
  (prog cf sf : string) (w : world) (catalogue sales : list value) :
  load w cf = Return (JList catalogue) ->
  load w sf = Return (JList sales) ->
  open_results w = None ->
  Forall priced_entry catalogue ->
  Forall sale_record sales ->
  sales_in_range catalogue sales ->
  Forall (fun name => printable name = true) (unknown_products catalogue sales) ->
  main [prog; cf; sf] w
  = {| console := map warning (unknown_products catalogue sales)
                  ++ [total_line (sum_of_sales catalogue sales)];
       results_file :=
         Some [total_line (sum_of_sales catalogue sales);
               time_line (F64.sub (clock_end w) (clock_start w))];
       status := Finished |}.
Proof.
  intros Hcf Hsf Hopen Hcat Hsales Hrange Hprint.
  destruct (comprehension_string catalogue [] (priced_titled catalogue Hcat))
    as [d [Hd [_ Hf]]]; [constructor |].
  assert (Hc : compute_total_cost (JList catalogue) (JList sales) []
               = (Return (sum_of_sales catalogue sales),
                  map warning (unknown_products catalogue sales))).
  { rewrite (compute_total_cost_loop catalogue d) by assumption.
    rewrite (for_sales_sum catalogue Hcat d); trivial.
    intros name. rewrite Hf. now destruct (catalogue_price catalogue name). }
  unfold main. cbn [List.length Nat.eqb negb nth].
  unfold try_body, bind, lift, ret. rewrite Hcf, Hsf, Hc.
  rewrite print_encodable by reflexivity. now rewrite Hopen.
Qed.

(** ** The total line of integer amounts *)

Lemma shift_value p n : Z.pos (shift p n) = Z.pos p * 2 ^ Z.of_nat n.
Proof.
  induction n as [| n IH]; [cbn; lia |].
  change (shift p (S n)) with (xO (shift p n)).
  rewrite Nat2Z.inj_succ, Z.pow_succ_r by lia.
  rewrite Pos2Z.inj_xO, IH. lia.
Qed.

Lemma hundredths_float_of_pos p :
  Z.pos (digits2_pos p) <= 53 ->
  hundredths (shift p (Z.to_nat (53 - Z.pos (digits2_pos p))))
    (Z.pos (digits2_pos p) - 53)
  = Z.pos p * 100.
Proof.
  intros Hd. unfold hundredths. rewrite shift_value.
  set (k := Z.to_nat (53 - Z.pos (digits2_pos p))).
  destruct (0 <=? Z.pos (digits2_pos p) - 53) eqn:E.
  - apply Z.leb_le in E.
    replace (Z.pos (digits2_pos p) - 53) with 0 by lia.
    replace k with 0%nat by (unfold k; lia). cbn [Z.of_nat]. lia.
  - apply Z.leb_gt in E.
    replace (- (Z.pos (digits2_pos p) - 53)) with (Z.of_nat k) by (unfold k; lia).
    assert (Hpow : 0 < 2 ^ Z.of_nat k) by (apply Z.pow_pos_nonneg; lia).
    unfold round_half_even.
    replace (Z.pos p * 2 ^ Z.of_nat k * 100) with (Z.pos p * 100 * 2 ^ Z.of_nat k)
      by lia.
    rewrite Z.div_mul, Z.mod_mul by lia.
    now replace (2 * 0 ?= 2 ^ Z.of_nat k) with Lt by (symmetry; apply Z.compare_lt_iff; lia).
Qed.

(** An integer total below [2 ^ 53] is printed as the integer followed by
    [.00]. *)
Lemma fixed2_of_Z n :
  0 <= n < 2 ^ 53 -> fixed2 (F64.of_Z n) = String.append (decimal n) ".00".
Proof.
  intros [H0 H]. destruct n as [| p | p]; [reflexivity | | lia].
  rewrite of_Z_pos by assumption. unfold float_of_pos, F64.prec. cbn [fixed2].
  rewrite hundredths_float_of_pos by now apply digits_le.
  rewrite Z.div_mul, Z.mod_mul by lia. reflexivity.
Qed.

Lemma append_empty s : String.append s "" = s.
Proof. induction s as [| c s IH]; cbn; [reflexivity | now rewrite IH]. Qed.

(** X15: end to end on integer amounts: when every sale is of a product in
    the catalogue, every price and quantity is a non-negative integer and
    the sum of price times quantity is below [2 ^ 53], the run prints no
    warning, and the one line on the console, which is also the first
    line of the results file, reads [Total Cost: $] followed by that
    exact sum and [.00]. *)
Theorem main_integer_total_line
  (prog cf sf : string) (w : world) (catalogue sales : list value) :
  load w cf = Return (JList catalogue) ->
  load w sf = Return (JList sales) ->
  open_results w = None ->
  Forall priced_entry catalogue ->
  Forall sale_record sales ->
  Forall (int_sale catalogue) sales ->
  exact_total catalogue sales < 2 ^ 53 ->
  exists total_text,
    console (main [prog; cf; sf] w) = [total_text]
    /\ option_map (hd []) (results_file (main [prog; cf; sf] w)) = Some total_text
    /\ render total_text
       = Some (String.append "Total Cost: $"
                 (String.append (decimal (exact_total catalogue sales)) ".00")).
Proof.
  intros Hcf Hsf Hopen Hcat Hsales Hint Hlt.
  exists (total_line (F64.of_Z (exact_total catalogue sales))).
  pose proof (compute_total_cost_integers catalogue sales [] Hcat Hsales Hint Hlt)
    as Hc.
  unfold main. cbn [List.length Nat.eqb negb nth].
  unfold try_body, bind, lift, ret. rewrite Hcf, Hsf, Hc.
  rewrite print_encodable by reflexivity. rewrite Hopen.
  repeat split.
  cbn [render total_line option_map].
  rewrite fixed2_of_Z by (split; [apply exact_total_nonneg | assumption]).
  now rewrite append_empty.
Qed.

(** ** The warnings and the order of the records *)

Lemma filter_perm {A} (f : A -> bool) l l' :
  Permutation l l' -> Permutation (filter f l) (filter f l').
Proof.
  induction 1 as [| x l l' _ IH | x y l | l l' l'' _ IH1 _ IH2]; cbn.
  - constructor.
  - destruct (f x); [now constructor | exact IH].
  - destruct (f x), (f y); try apply Permutation_refl. apply perm_swap.
  - now transitivity (filter f l').
Qed.

(** X16: on a catalogue of entries with a title and a numeric price and
    sales with a product and a numeric quantity, within the range of
    [float] and with unknown product names that the console can encode,
    the computation returns for the records in any order, each time with
    the float sum of that order and the warnings of the unknown products
    in that order; the warnings of one order are those of another,
    rearranged. *)
Theorem warnings_order_independent
  (catalogue sales sales' : list value) :
  Forall priced_entry catalogue ->
  Forall sale_record sales ->
  sales_in_range catalogue sales ->
  Forall (fun name => printable name = true) (unknown_products catalogue sales) ->
  Permutation sales sales' ->
  compute_total_cost (JList catalogue) (JList sales) []
  = (Return (sum_of_sales catalogue sales),
     map warning (unknown_products catalogue sales))
  /\ compute_total_cost (JList catalogue) (JList sales') []
     = (Return (sum_of_sales catalogue sales'),
        map warning (unknown_products catalogue sales'))
  /\ Permutation (map warning (unknown_products catalogue sales))
       (map warning (unknown_products catalogue sales')).
Proof.
  intros Hcat Hsales Hrange Hprint Hperm.
  assert (Hnames : Permutation (unknown_products catalogue sales)
                     (unknown_products catalogue sales'))
    by (unfold unknown_products; now apply Permutation_map, filter_perm).
  destruct (comprehension_string catalogue [] (priced_titled catalogue Hcat))
    as [d [Hd [_ Hf]]]; [constructor |].
  assert (Hfind : forall name,
             dict_find d (JStr name) = catalogue_price catalogue name).
  { intros name. rewrite Hf. now destruct (catalogue_price catalogue name). }
  rewrite !(compute_total_cost_loop catalogue d) by assumption.
  rewrite !(for_sales_sum catalogue Hcat d); trivial.
  - repeat split. now apply Permutation_map.
  - now apply (Permutation_Forall Hperm).
  - unfold sales_in_range in *. now apply (Permutation_Forall Hperm).
  - now apply (Permutation_Forall Hnames).
Qed.
End Properties.

(** * The properties on the sample inputs *)

(** The sample platform: a UTF-8 console. *)
#[export] Existing Instance Sample.platform.

(** ** Inputs on which a claim does not hold as it is stated *)

(** C2, as stated, fails: with the prices [10000000000000000] and [1] and
    three sales of quantity [1], all of products in the catalogue, the
    total is [10000000000000000.0] in one order of the records and
    [10000000000000002.0] in another. *)
Lemma total_depends_on_record_order :
  Forall priced_entry Sample.catalogue_int
  /\ Forall (int_sale Sample.catalogue_int) Sample.sales_ABB
  /\ Permutation Sample.sales_ABB Sample.sales_BBA
  /\ compute_total_cost (JList Sample.catalogue_int) (JList Sample.sales_ABB) []
     = (Return (F64.of_Z 10000000000000000), [])
  /\ compute_total_cost (JList Sample.catalogue_int) (JList Sample.sales_BBA) []
     = (Return (F64.of_Z 10000000000000002), [])
  /\ F64.of_Z 10000000000000000 <> F64.of_Z 10000000000000002
  /\ fixed2 (F64.of_Z 10000000000000000) <> fixed2 (F64.of_Z 10000000000000002).
Proof.
  split; [| split; [| split; [| repeat split]]].
  - priced_entries.
  - repeat constructor; discriminate.
  - unfold Sample.sales_ABB, Sample.sales_BBA.
    apply (Permutation_cons_app [Sample.sale "B" (JInt 1); Sample.sale "B" (JInt 1)] []).
    apply Permutation_refl.
  - discriminate.
  - vm_compute. discriminate.
Qed.

(** C1, as stated, fails on an integer beyond the range of [float]: with
    the price [10 ^ 400] and one sale of quantity [1], both numbers, the
    addition to the total raises [OverflowError] and nothing is
    returned. *)
Lemma integer_beyond_float_raises :
  Forall priced_entry [Sample.item "A" (JInt (10 ^ 400))]
  /\ Forall sale_record [Sample.sale "A" (JInt 1)]
  /\ is_resolved [Sample.item "A" (JInt (10 ^ 400))] (Sample.sale "A" (JInt 1)) = true
  /\ compute_total_cost (JList [Sample.item "A" (JInt (10 ^ 400))])
       (JList [Sample.sale "A" (JInt 1)]) []
     = (Raise OverflowError, []).
Proof.
  split; [| split; [| split]].
  - priced_entries.
  - repeat constructor; discriminate.
  - reflexivity.
  - vm_compute. reflexivity.
Qed.

(** C3, as stated, fails on a product name that the console cannot
    encode: on a UTF-8 console, the sale of the product ["\ud800"], which
    is not in the catalogue, is not skipped with a warning: the [print]
    raises [UnicodeEncodeError], nothing is printed, no total is returned
    and the sale after it is not processed. *)
Lemma unencodable_product_aborts :
  dict_contains
    [(JStr "A", JFloat (F64.ratio 10 1)); (JStr "B", JFloat (F64.ratio 5 2))]
    (JStr Sample.lone_surrogate)
  = Return false
  /\ compute_total_cost (JList Sample.catalogue)
       (JList [Sample.sale Sample.lone_surrogate (JInt 1);
               Sample.sale "A" (JInt 3)]) []
     = (Raise UnicodeEncodeError, []).
Proof. split; reflexivity. Qed.

(** C6, as stated, fails on a file that exists and cannot be read: the
    [PermissionError] of [open] has no handler in [main], the program
    prints no error line, and the run ends with the exception uncaught. *)
Lemma unreadable_file_is_uncaught :
  main Sample.argv
    (Sample.world_of Sample.unreadable (Return (JList Sample.sales))
       F64.zero F64.zero)
  = {| console := []; results_file := None;
       status := Uncaught (OtherError "PermissionError") |}.
Proof. reflexivity. Qed.

(** C10, as stated, fails on a catalogue with a [null] title: the product
    name [None] of a sale without the key ['Product'] is then a key of
    the mapping, the sale is priced, [2.0 * 3], and no warning is
    printed. *)
Lemma null_title_prices_missing_product :
  compute_total_cost (JList Sample.catalogue_null_title)
    (JList Sample.sales_without_product) []
  = (Return (F64.of_Z 6), []).
Proof. reflexivity. Qed.

(** ** The properties on sample inputs *)

Lemma main_usage_witness :
  List.length ["priceCatalogue.json"] <> 2%nat
  /\ main ["computeSales.py"; "priceCatalogue.json"]
       (Sample.world_of Sample.missing Sample.missing F64.zero F64.zero)
     = {| console := [usage]; results_file := None; status := SystemExit 1 |}.
Proof.
  split; [cbn; lia |].
  apply (main_usage "computeSales.py" ["priceCatalogue.json"]). cbn; lia.
Defined.

Lemma main_load_failure_witness :
  main Sample.argv
    (Sample.world_of Sample.missing (Return (JList Sample.sales)) F64.zero F64.zero)
  = {| console :=
         [[Text "Error: ";
           Str (JStr "[Errno 2] No such file or directory: 'priceCatalogue.json'")]];
       results_file := None; status := Finished |}.
Proof.
  destruct (main_load_failure "computeSales.py" "priceCatalogue.json"
              "salesRecord.json"
              (Sample.world_of Sample.missing (Return (JList Sample.sales))
                 F64.zero F64.zero)
              (FileNotFoundError
                 "[Errno 2] No such file or directory: 'priceCatalogue.json'"))
    as [_ [H _]].
  - left. reflexivity.
  - apply (H "[Errno 2] No such file or directory: 'priceCatalogue.json'").
    + left. reflexivity.
    + reflexivity.
Defined.

Lemma main_total_deterministic_witness :
  option_map (hd [])
    (results_file
       (main Sample.argv
          (Sample.world_of (Return (JList Sample.catalogue))
             (Return (JList Sample.sales)) (F64.of_Z 100) (F64.of_Z 101))))
  = option_map (hd [])
      (results_file
         (main Sample.argv
            (Sample.world_of (Return (JList Sample.catalogue))
               (Return (JList Sample.sales)) (F64.of_Z 200) (F64.of_Z 207)))).
Proof.
  apply (main_total_deterministic Sample.argv
           (Sample.world_of (Return (JList Sample.catalogue))
              (Return (JList Sample.sales)) (F64.of_Z 100) (F64.of_Z 101))
           (Sample.world_of (Return (JList Sample.catalogue))
              (Return (JList Sample.sales)) (F64.of_Z 200) (F64.of_Z 207)));
    reflexivity.
Defined.

Lemma unknown_product_is_skipped_witness :
  compute_total_cost (JList Sample.catalogue)
    (JList ([Sample.sale "A" (JInt 3)]
            ++ Sample.sale "C" (JInt 1) :: [Sample.sale "B" (JInt 2)])) []
  = (Return (F64.of_Z 35), [] ++ [warning (JStr "C")]).
Proof.
  apply (unknown_product_is_skipped Sample.catalogue
           [(JStr "A", JFloat (F64.ratio 10 1)); (JStr "B", JFloat (F64.ratio 5 2))]
           [Sample.sale "A" (JInt 3)] [Sample.sale "B" (JInt 2)]
           (Sample.sale "C" (JInt 1)) (JStr "C") (F64.of_Z 30)
           (Return (F64.of_Z 35)) [] [] []);
    reflexivity.
Defined.

Lemma missing_product_is_skipped_witness :
  compute_total_cost (JList Sample.catalogue)
    (JList ([Sample.sale "A" (JInt 3)]
            ++ JDict [("product", JStr "A"); ("Quantity", JInt 3)]
               :: [Sample.sale "C" (JInt 1)])) []
  = (Return (F64.of_Z 30), [] ++ [warning JNull; warning (JStr "C")]).
Proof.
  apply (missing_product_is_skipped Sample.catalogue
           [Sample.sale "A" (JInt 3)] [Sample.sale "C" (JInt 1)]
           [("product", JStr "A"); ("Quantity", JInt 3)]
           (F64.of_Z 30) (Return (F64.of_Z 30)) [] [] [warning (JStr "C")]);
    try reflexivity.
  repeat constructor; discriminate.
Defined.

Lemma catalogue_entry_without_key_aborts_witness :
  exists e,
    compute_total_cost (JList Sample.catalogue_without_price)
      (JList Sample.sales) []
    = (Raise e, [])
    /\ unhandled e.
Proof.
  destruct (catalogue_entry_without_key_aborts Sample.catalogue_without_price
              (JDict [("title", JStr "B")]) [("title", JStr "B")]
              (JList Sample.sales) []) as [e [H1 [H2 _]]].
  - right. left. reflexivity.
  - reflexivity.
  - right. reflexivity.
  - exists e. split; assumption.
Defined.


Lemma compute_total_cost_sum_witness :
  compute_total_cost (JList Sample.catalogue) (JList Sample.sales) []
  = (Return (F64.of_Z 30), [warning (JStr "C")]).
Proof.
  apply (compute_total_cost_sum Sample.catalogue Sample.sales []).
  - priced_entries.
  - repeat constructor; discriminate.
  - repeat constructor.
  - repeat constructor.
Defined.

Lemma total_order_independent_integers_witness :
  compute_total_cost (JList Sample.catalogue_small) (JList Sample.sales_BA) []
  = compute_total_cost (JList Sample.catalogue_small) (JList Sample.sales_AB) []
  /\ compute_total_cost (JList Sample.catalogue_small) (JList Sample.sales_AB) []
     = (Return (F64.of_Z 23), []).
Proof.
  apply (total_order_independent_integers Sample.catalogue_small
           Sample.sales_AB Sample.sales_BA []).
  - priced_entries.
  - repeat constructor; discriminate.
  - repeat constructor; discriminate.
  - reflexivity.
  - apply perm_swap.
Defined.

(** The example of the specification, end to end: the warning for ["C"],
    the total [30.00] on the console and in the results file. *)
Example sample_run :
  let r := main Sample.argv
             (Sample.world_of (Return (JList Sample.catalogue))
                (Return (JList Sample.sales)) (F64.of_Z 5) (F64.of_Z 5)) in
  map render (console r)
  = [Some " Product C not found in the price catalogue.";
     Some "Total Cost: $30.00"]
  /\ option_map (map render) (results_file r)
     = Some [Some "Total Cost: $30.00"; Some "Execution Time: 0.00 seconds"]
  /\ status r = Finished.
Proof. repeat split. Qed.

(** ** The further properties on sample inputs *)

Lemma empty_catalogue_warns_all_witness :
  compute_total_cost (JList []) (JList Sample.sales) []
  = (Return F64.zero, [warning (JStr "A"); warning (JStr "C")]).
Proof.
  apply (empty_catalogue_warns_all Sample.sales []).
  - repeat constructor; eexists; split; reflexivity.
  - repeat constructor.
Defined.

Lemma sale_unencodable_name_aborts_witness :
  compute_total_cost (JList Sample.catalogue)
    (JList ([Sample.sale "C" (JInt 1)]
            ++ Sample.sale Sample.lone_surrogate (JInt 1)
               :: [Sample.sale "A" (JInt 3)])) []
  = (Raise UnicodeEncodeError, [warning (JStr "C")]).
Proof.
  apply (sale_unencodable_name_aborts Sample.catalogue
           [(JStr "A", JFloat (F64.ratio 10 1)); (JStr "B", JFloat (F64.ratio 5 2))]
           [Sample.sale "C" (JInt 1)] [Sample.sale "A" (JInt 3)]
           (Sample.sale Sample.lone_surrogate (JInt 1))
           (JStr Sample.lone_surrogate) F64.zero [] [warning (JStr "C")]);
    reflexivity.
Defined.

Lemma sale_not_object_aborts_witness :
  compute_total_cost (JList Sample.catalogue)
    (JList ([Sample.sale "C" (JInt 1)] ++ JInt 7 :: [Sample.sale "A" (JInt 3)])) []
  = (Raise AttributeError, [warning (JStr "C")]).
Proof.
  apply (sale_not_object_aborts Sample.catalogue [Sample.sale "C" (JInt 1)]
           [Sample.sale "A" (JInt 3)] (JInt 7) F64.zero [] [warning (JStr "C")]).
  - reflexivity.
  - discriminate.
Defined.

Lemma sale_unhashable_product_aborts_witness :
  compute_total_cost (JList Sample.catalogue)
    (JList ([Sample.sale "C" (JInt 1)]
            ++ JDict [("Product", JList [JStr "A"]); ("Quantity", JInt 1)]
               :: [Sample.sale "A" (JInt 3)])) []
  = (Raise TypeError, [warning (JStr "C")]).
Proof.
  apply (sale_unhashable_product_aborts Sample.catalogue [Sample.sale "C" (JInt 1)]
           [Sample.sale "A" (JInt 3)]
           [("Product", JList [JStr "A"]); ("Quantity", JInt 1)]
           (JList [JStr "A"]) F64.zero [] [warning (JStr "C")]);
    reflexivity.
Defined.

Lemma sale_without_number_aborts_witness :
  exists e,
    compute_total_cost (JList Sample.catalogue)
      (JList ([Sample.sale "C" (JInt 1)]
              ++ JDict [("Product", JStr "A"); ("Quantity", JStr "3")]
                 :: [Sample.sale "A" (JInt 3)])) []
    = (Raise e, [warning (JStr "C")])
    /\ unhandled e.
Proof.
  apply (sale_without_number_aborts Sample.catalogue
           [(JStr "A", JFloat (F64.ratio 10 1)); (JStr "B", JFloat (F64.ratio 5 2))]
           [Sample.sale "C" (JInt 1)] [Sample.sale "A" (JInt 3)]
           [("Product", JStr "A"); ("Quantity", JStr "3")]
           (JStr "A") (JFloat (F64.ratio 10 1)) (JStr "3")
           F64.zero [] [warning (JStr "C")]);
    try reflexivity.
  right. reflexivity.
Defined.

Lemma main_computation_error_witness :
  main Sample.argv
    (Sample.world_of (Return (JList Sample.catalogue_without_price))
       (Return (JList Sample.sales)) F64.zero F64.zero)
  = {| console := []; results_file := None;
       status := Uncaught (KeyError (JStr "price")) |}.
Proof.
  apply (main_computation_error "computeSales.py" "priceCatalogue.json"
           "salesRecord.json"
           (Sample.world_of (Return (JList Sample.catalogue_without_price))
              (Return (JList Sample.sales)) F64.zero F64.zero)
           (JList Sample.catalogue_without_price) (JList Sample.sales)
           (KeyError (JStr "price")) []);
    reflexivity.
Defined.

Lemma sales_record_not_a_list_witness :
  compute_total_cost (JList Sample.catalogue) (Sample.sale "A" (JInt 3)) []
  = (Raise AttributeError, []).
Proof.
  apply (sales_record_not_a_list Sample.catalogue
           [(JStr "A", JFloat (F64.ratio 10 1)); (JStr "B", JFloat (F64.ratio 5 2))]
           (Sample.sale "A" (JInt 3)) []).
  - reflexivity.
  - discriminate.
Defined.

Lemma price_catalogue_not_a_list_witness :
  compute_total_cost (Sample.item "A" (JInt 10)) (JList Sample.sales) []
  = (Raise TypeError, []).
Proof.
  apply (price_catalogue_not_a_list (Sample.item "A" (JInt 10))
           (JList Sample.sales) []).
  discriminate.
Defined.

Lemma product_known_iff_titled_witness :
  exists product_prices,
    comprehension Sample.catalogue_twice [] = Return product_prices
    /\ forall name,
         dict_contains product_prices (JStr name)
         = Return (existsb (titled name) Sample.catalogue_twice).
Proof.
  apply (product_known_iff_titled Sample.catalogue_twice).
  repeat constructor; eexists _, _, _; repeat split; reflexivity.
Defined.

Lemma catalogue_order_irrelevant_witness :
  compute_total_cost
    (JList [Sample.item "B" (JFloat (F64.ratio 5 2));
            Sample.item "A" (JFloat (F64.ratio 10 1))])
    (JList Sample.sales) []
  = compute_total_cost (JList Sample.catalogue) (JList Sample.sales) [].
Proof.
  apply (catalogue_order_irrelevant Sample.catalogue
           [Sample.item "B" (JFloat (F64.ratio 5 2));
            Sample.item "A" (JFloat (F64.ratio 10 1))]
           (JList Sample.sales) []).
  - repeat constructor; eexists _, _, _; repeat split; reflexivity.
  - repeat constructor; cbn; intuition discriminate.
  - apply perm_swap.
Defined.

Lemma main_results_file_content_witness :
  status
    (main Sample.argv
       (Sample.world_of (Return (JList Sample.catalogue))
          (Return (JList Sample.sales)) (F64.of_Z 5) (F64.of_Z 7)))
  = Finished.
Proof.
  apply (main_results_file_content Sample.argv
           (Sample.world_of (Return (JList Sample.catalogue))
              (Return (JList Sample.sales)) (F64.of_Z 5) (F64.of_Z 7))
           [total_line (F64.of_Z 30);
            time_line (F64.sub (F64.of_Z 7) (F64.of_Z 5))]).
  reflexivity.
Defined.

Lemma main_results_unwritable_witness :
  results_file
    (main Sample.argv
       {| load := Sample.disk (Return (JList Sample.catalogue))
                    (Return (JList Sample.sales));
          clock_start := F64.zero; clock_end := F64.zero;
          open_results := Some (OtherError "PermissionError") |})
  = None.
Proof.
  apply (main_results_unwritable "computeSales.py" "priceCatalogue.json"
           "salesRecord.json"
           {| load := Sample.disk (Return (JList Sample.catalogue))
                        (Return (JList Sample.sales));
              clock_start := F64.zero; clock_end := F64.zero;
              open_results := Some (OtherError "PermissionError") |}
           (JList Sample.catalogue) (JList Sample.sales)
           (F64.of_Z 30) [warning (JStr "C")] (OtherError "PermissionError"));
    reflexivity.
Defined.

Lemma main_reports_sum_witness :
  main Sample.argv
    (Sample.world_of (Return (JList Sample.catalogue))
       (Return (JList Sample.sales)) (F64.of_Z 5) (F64.of_Z 7))
  = {| console := [warning (JStr "C"); total_line (F64.of_Z 30)];
       results_file := Some [total_line (F64.of_Z 30); time_line (F64.of_Z 2)];
       status := Finished |}.
Proof.
  apply (main_reports_sum "computeSales.py" "priceCatalogue.json"
           "salesRecord.json"
           (Sample.world_of (Return (JList Sample.catalogue))
              (Return (JList Sample.sales)) (F64.of_Z 5) (F64.of_Z 7))
           Sample.catalogue Sample.sales); try reflexivity.
  - priced_entries.
  - repeat constructor; discriminate.
  - repeat constructor.
  - repeat constructor.
Defined.

Lemma main_integer_total_line_witness :
  exists total_text,
    console
      (main Sample.argv
         (Sample.world_of (Return (JList Sample.catalogue_small))
            (Return (JList Sample.sales_AB)) F64.zero F64.zero))
    = [total_text]
    /\ option_map (hd [])
         (results_file
            (main Sample.argv
               (Sample.world_of (Return (JList Sample.catalogue_small))
                  (Return (JList Sample.sales_AB)) F64.zero F64.zero)))
       = Some total_text
    /\ render total_text = Some "Total Cost: $23.00".
Proof.
  apply (main_integer_total_line "computeSales.py" "priceCatalogue.json"
           "salesRecord.json"
           (Sample.world_of (Return (JList Sample.catalogue_small))
              (Return (JList Sample.sales_AB)) F64.zero F64.zero)
           Sample.catalogue_small Sample.sales_AB); try reflexivity.
  - priced_entries.
  - repeat constructor; discriminate.
  - repeat constructor; discriminate.
Defined.

Lemma warnings_order_independent_witness :
  compute_total_cost (JList Sample.catalogue) (JList Sample.sales) []
  = (Return (F64.of_Z 30), [warning (JStr "C")])
  /\ compute_total_cost (JList Sample.catalogue)
       (JList [Sample.sale "C" (JInt 1); Sample.sale "A" (JInt 3)]) []
     = (Return (F64.of_Z 30), [warning (JStr "C")])
  /\ Permutation [warning (JStr "C")] [warning (JStr "C")].
Proof.
  apply (warnings_order_independent Sample.catalogue Sample.sales
           [Sample.sale "C" (JInt 1); Sample.sale "A" (JInt 3)]).
  - priced_entries.
  - repeat constructor; discriminate.
  - repeat constructor.
  - repeat constructor.
  - apply perm_swap.
Defined.
